(** * Task scheduling core of ai-task-orchestrator

    A shallow embedding of [app/services/task_scheduler.py]: the in-memory
    task registry of [TaskScheduler], its three housekeeping jobs
    ([_check_deadlines], [_recalculate_priorities],
    [_generate_ai_suggestions]), [register_task], [schedule_cron] and
    [suggest_schedule_for_task].  Further on come the rest of the class
    (removal, lifecycle, one-off and interval jobs, scheduling by
    proposal) and the helpers of [app/services/ai_engine.py] that compute
    without a model.

    Python's dynamically typed dictionaries are kept as they are: a task is
    a finite map from field names to values of a small universe of Python
    values, and an operation applied to a value of the wrong type raises,
    as it does in Python.  A job that raises half-way leaves the registry
    as far as it got; jobs therefore return the registry together with the
    exception that escaped, if any. *)

From Stdlib Require Import ZArith String Ascii List Bool Lia.
From stdpp Require Import gmap strings list fin_maps.

Local Open Scope string_scope.
Local Open Scope Z_scope.

Set Warnings "-register-all".

(** ** Python values *)

(** A [datetime].  The instant is counted in microseconds (the resolution
    of [datetime] and [timedelta]); [dt_aware] tells whether the object
    carries a time zone.  [datetime.utcnow()] is naive. *)
Record datetime := mkdt { dt_us : Z; dt_aware : bool }.

(** The values a task dictionary holds according to the schema in the
    class docstring: [None], [int], [str], [datetime], [list] and [dict]
    (with [str] keys).  A string is a sequence of code points below 256. *)
Inductive value : Type :=
| VNone
| VInt (z : Z)
| VStr (s : string)
| VTime (d : datetime)
| VList (l : list value)
| VDict (d : gmap string value).

Abbreviation pydict := (gmap string value).

(** Exceptions: the class and [str(e)]. *)
Inductive exn_class := ValueError | TypeError | OtherError (name : string).
Record exn := Exn { exn_cls : exn_class; exn_str : string }.

(** The result of a call that may raise. *)
Inductive result (A : Type) : Type :=
| Ok (a : A)
| Raise (e : exn).
Arguments Ok {A} a.
Arguments Raise {A} e.

Module Py.

(** [bool(v)]: [None], [0], the empty string, list and dict are falsy;
    a [datetime] is always truthy. *)
Definition truthy (v : value) : bool :=
  match v with
  | VNone => false
  | VInt z => negb (z =? 0)
  | VStr s => negb (String.eqb s "")
  | VTime _ => true
  | VList l => match l with [] => false | _ => true end
  | VDict d => match map_to_list d with [] => false | _ => true end
  end.

(** [v == s] for a string literal [s]. *)
Definition eq_str (v : value) (s : string) : bool :=
  match v with
  | VStr s' => String.eqb s' s
  | _ => false
  end.

(** [hash(v)] succeeds: lists and dicts are unhashable. *)
Definition hashable (v : value) : bool :=
  match v with
  | VList _ | VDict _ => false
  | _ => true
  end.

Definition datetime_eqb (a b : datetime) : bool :=
  (dt_us a =? dt_us b) && Bool.eqb (dt_aware a) (dt_aware b).

(** [a == b] on hashable values, as used for dictionary keys. *)
Definition key_eqb (a b : value) : bool :=
  match a, b with
  | VNone, VNone => true
  | VInt x, VInt y => x =? y
  | VStr x, VStr y => String.eqb x y
  | VTime x, VTime y => datetime_eqb x y
  | _, _ => false
  end.

(** [v in {s1, s2}]: hashes [v], then compares. *)
Definition in_str_set (v : value) (s1 s2 : string) : result bool :=
  if hashable v then Ok (eq_str v s1 || eq_str v s2)
  else Raise (Exn TypeError "unhashable type").

(** [d.get(k)] and [d.get(k, default)] *)
Definition get (d : pydict) (k : string) : value :=
  match d !! k with Some v => v | None => VNone end.

Definition get_default (d : pydict) (k : string) (dflt : value) : value :=
  match d !! k with Some v => v | None => dflt end.

(** [d.setdefault(k, v)] *)
Definition setdefault (k : string) (v : value) (d : pydict) : pydict :=
  match d !! k with Some _ => d | None => <[k := v]> d end.

(** [d[k1][k2] = v]: [d[k1]] must exist and support item assignment
    with a string key, which among the values here only a dict does. *)
Definition setitem2 (d : pydict) (k1 k2 : string) (v : value)
  : pydict * option exn :=
  match d !! k1 with
  | Some (VDict m) => (<[k1 := VDict (<[k2 := v]> m)]> d, None)
  | Some _ => (d, Some (Exn TypeError "object does not support item assignment"))
  | None => (d, Some (Exn (OtherError "KeyError") k1))
  end.

(** [suggestions.get(k)] for a key [k] that is any value. *)
Definition get_by_value (d : pydict) (k : value) : result value :=
  match k with
  | VStr s => Ok (get d s)
  | VList _ | VDict _ => Raise (Exn TypeError "unhashable type")
  | _ => Ok VNone
  end.

End Py.

(** ** The task registry *)

(** [self.tasks]: a Python dict, which keeps insertion order; keys are the
    tasks' ids.  Iteration order matters when a job raises half-way.  The
    jobs mutate the dictionaries the registry holds in place; an entry is
    stored under the id its dictionary carries, so two keys do not share
    one dictionary and the registry is kept as keys with their task
    values. *)
Definition registry := list (value * gmap string value).

Fixpoint reg_get (k : value) (reg : registry) : option pydict :=
  match reg with
  | [] => None
  | (k', t) :: rest => if Py.key_eqb k' k then Some t else reg_get k rest
  end.

(** [self.tasks[k] = t]: an existing key keeps its position. *)
Fixpoint reg_set (k : value) (t : pydict) (reg : registry) : registry :=
  match reg with
  | [] => [(k, t)]
  | (k', t') :: rest =>
      if Py.key_eqb k' k then (k', t) :: rest else (k', t') :: reg_set k t rest
  end.

(** [for t in self.tasks.values(): body(t)] where the body mutates [t] in
    place and may raise: the tasks after the raising one are not visited. *)
Fixpoint for_each (body : pydict → pydict * option exn) (reg : registry)
  : registry * option exn :=
  match reg with
  | [] => ([], None)
  | (k, t) :: rest =>
      match body t with
      | (t', Some e) => ((k, t') :: rest, Some e)
      | (t', None) =>
          let (rest', r) := for_each body rest in ((k, t') :: rest', r)
      end
  end.

(** [self.tasks.pop(task_id, None)] for a [str] id. *)
Definition remove_task (task_id : string) (reg : registry) : registry :=
  filter (λ kt, negb (Py.key_eqb kt.1 (VStr task_id))) reg.

(** ** Collaborators outside the repository *)

(** The parts of Python's standard library the scheduler calls.
    [fromisoformat] is [datetime.fromisoformat]; [None] stands for the
    exception that the callers catch.  [isoformat now] is
    [now.isoformat()] of the naive datetime at microsecond [now].
    [int_of_str] is [int(s)] on a string; [None] stands for [ValueError]. *)
Class PyLib := {
  fromisoformat : string → option datetime;
  isoformat : Z → string;
  int_of_str : string → option Z;
  (** [fromisoformat("")] raises [ValueError]. *)
  fromisoformat_empty : fromisoformat "" = None
}.

(** The AI engine handed to the constructor, through the two methods the
    scheduler calls on it.  [Raise] covers every [Exception], among them
    the [AttributeError] of an engine that lacks the method. *)
Class AIEngine := {
  suggest_next_actions : list pydict → result value;
  propose_schedule : pydict → result value
}.

(** APScheduler: the state of the [BackgroundScheduler], the triggers, the
    callables it runs, the constructor [CronTrigger(minute=, hour=, day=,
    month=, day_of_week=)], which validates its fields, and
    [add_job(func, trigger, id=, kwargs=, replace_existing=True)]. *)
Class APScheduler := {
  Sched : Type;
  Trigger : Type;
  Callable : Type;
  CronTrigger : string → string → string → string → string → result Trigger;
  add_job : Callable → Trigger → option string → pydict → Sched → Sched * option exn
}.

(** ** The scheduler *)

Section TaskScheduler.

Context `{!PyLib, !AIEngine}.

(** *** Operations on values that may raise *)

(** [int(v)] *)
Definition py_int (v : value) : result Z :=
  match v with
  | VInt z => Ok z
  | VStr s =>
      match int_of_str s with
      | Some z => Ok z
      | None => Raise (Exn ValueError "invalid literal for int()")
      end
  | _ => Raise (Exn TypeError "int() argument must be a string or a number")
  end.

(** [v < now] where [now] is a naive datetime. *)
Definition lt_now (v : value) (now : Z) : result bool :=
  match v with
  | VTime d =>
      if dt_aware d
      then Raise (Exn TypeError "can't compare offset-naive and offset-aware datetimes")
      else Ok (dt_us d <? now)
  | _ => Raise (Exn TypeError "'<' not supported")
  end.

(** [v - now], a [timedelta], in microseconds. *)
Definition sub_now (v : value) (now : Z) : result Z :=
  match v with
  | VTime d =>
      if dt_aware d
      then Raise (Exn TypeError "can't subtract offset-naive and offset-aware datetimes")
      else Ok (dt_us d - now)
  | _ => Raise (Exn TypeError "unsupported operand type(s) for -")
  end.

(** One second, one hour and one day in microseconds.  [total_seconds()]
    is the correctly rounded quotient of the microsecond count by 10^6;
    rounding is monotone and 0, 3600 and 86400 are floats, with floats
    strictly between them and any neighbouring multiple of 10^-6, so
    the float comparisons of the source are the integer comparisons
    below. *)
Definition second_us : Z := 1000000.
Definition hour_us : Z := 3600 * second_us.
Definition day_us : Z := 24 * 3600 * second_us.

(** *** Deadline sweep *)

(** The body of the loop of [_check_deadlines]. *)
Definition check_deadline (now : Z) (t : pydict) : pydict * option exn :=
  let deadline := Py.get t "deadline" in
  let status := Py.get t "status" in
  if negb (Py.truthy deadline) || Py.eq_str status "done" then (t, None)
  else
    let parsed :=
      match deadline with
      | VStr s => option_map VTime (fromisoformat s)
      | _ => Some deadline
      end in
    match parsed with
    | None => (t, None)
    | Some deadline =>
        match lt_now deadline now with
        | Raise e => (t, Some e)
        | Ok false => (t, None)
        | Ok true =>
            match Py.in_str_set status "overdue" "done" with
            | Raise e => (t, Some e)
            | Ok true => (t, None)
            | Ok false =>
                let t := <["status" := VStr "overdue"]> t in
                let t := Py.setdefault "metadata" (VDict ∅) t in
                Py.setitem2 t "metadata" "overdue_since" (VStr (isoformat now))
            end
        end
    end.

Definition _check_deadlines (now : Z) (reg : registry) : registry * option exn :=
  for_each (check_deadline now) reg.

(** *** Priority recalculation *)

(** The [if deadline: ...] block computing [urgency_bump]. *)
Definition urgency_bump (now : Z) (deadline : value) : result Z :=
  if Py.truthy deadline then
    match sub_now deadline now with
    | Raise e => Raise e
    | Ok delta =>
        if delta <=? 0 then Ok (-2)
        else if delta <? hour_us then Ok (-1)
        else if delta <? day_us then Ok 0
        else Ok 1
    end
  else Ok 0.

(** The body of the loop of [_recalculate_priorities]. *)
Definition recalculate_priority (now : Z) (t : pydict) : pydict * option exn :=
  if Py.eq_str (Py.get t "status") "done" then (t, None)
  else
    match py_int (Py.get_default t "priority" (VInt 3)) with
    | Raise e => (t, Some e)
    | Ok base =>
        let deadline := Py.get t "deadline" in
        let deadline :=
          match deadline with
          | VStr s =>
              match fromisoformat s with
              | Some d => VTime d
              | None => VNone
              end
          | _ => deadline
          end in
        match urgency_bump now deadline with
        | Raise e => (t, Some e)
        | Ok bump =>
            let new_priority := Z.max 1 (Z.min 5 (base + bump)) in
            (<["priority" := VInt new_priority]> t, None)
        end
    end.

Definition _recalculate_priorities (now : Z) (reg : registry)
  : registry * option exn :=
  for_each (recalculate_priority now) reg.

(** *** Suggestion refresh *)

(** The body of the loop of the [try] block, for one task of the
    registry: tasks that are done are not in [pending_tasks]. *)
Definition attach_suggestion (suggestions : value) (t : pydict)
  : pydict * option exn :=
  if Py.eq_str (Py.get t "status") "done" then (t, None)
  else
    let t := Py.setdefault "metadata" (VDict ∅) t in
    let picked :=
      match suggestions with
      | VDict d => Py.get_by_value d (Py.get t "id")
      | _ => Ok suggestions
      end in
    match picked with
    | Raise e => (t, Some e)
    | Ok s => Py.setitem2 t "metadata" "ai_suggestions" s
    end.

(** The body of the loop of the [except] block. *)
Definition attach_error (msg : string) (t : pydict) : pydict * option exn :=
  let t := Py.setdefault "metadata" (VDict ∅) t in
  Py.setitem2 t "metadata" "ai_suggestions_error" (VStr msg).

Definition pending_tasks (reg : registry) : list pydict :=
  map snd (filter (λ kt, negb (Py.eq_str (Py.get kt.2 "status") "done")) reg).

Definition _generate_ai_suggestions (reg : registry) : registry * option exn :=
  let attempt :=
    match suggest_next_actions (pending_tasks reg) with
    | Raise e => (reg, Some e)
    | Ok suggestions => for_each (attach_suggestion suggestions) reg
    end in
  match attempt with
  | (reg, None) => (reg, None)
  | (reg, Some e) => for_each (attach_error (exn_str e)) reg
  end.

(** *** Registry operations *)

(** [register_task] fills the defaults into the caller's dictionary and
    stores that dictionary; the first component of the result is the
    caller's dictionary afterwards. *)
Definition register_task (t : pydict) (reg : registry)
  : (pydict * registry) * option exn :=
  match t !! "id" with
  | None => ((t, reg), Some (Exn ValueError "Task must include an 'id'"))
  | Some id =>
      let t := Py.setdefault "priority" (VInt 3) t in
      let t := Py.setdefault "status" (VStr "pending") t in
      let t := Py.setdefault "tags" (VList []) t in
      let t := Py.setdefault "metadata" (VDict ∅) t in
      if Py.hashable id then ((t, reg_set id t reg), None)
      else ((t, reg), Some (Exn TypeError "unhashable type"))
  end.

(** *** On-demand proposal *)

Definition suggest_schedule_for_task (task_id : string) (reg : registry)
  : result value :=
  match reg_get (VStr task_id) reg with
  | None => Ok VNone
  | Some t =>
      if negb (Py.truthy (VDict t)) then Ok VNone
      else
        match propose_schedule t with
        | Ok proposal => Ok proposal
        | Raise _ => Ok VNone
        end
  end.

End TaskScheduler.

(** ** Cron scheduling *)

(** [c.isspace()] for a code point below 256. *)
Definition isspace (c : ascii) : bool :=
  let n := nat_of_ascii c in
  ((9 <=? n) && (n <=? 13) || (28 <=? n) && (n <=? 32)
   || (n =? 133) || (n =? 160))%nat.

(** [s.split()]: the maximal runs of characters that are not whitespace.
    [cur] is the run being read, last character first. *)
Fixpoint split_from (cur : list ascii) (s : string) : list string :=
  let flush rest :=
    match cur with
    | [] => rest
    | _ => string_of_list_ascii (rev cur) :: rest
    end in
  match s with
  | EmptyString => flush []
  | String c s' =>
      if isspace c then flush (split_from [] s') else split_from (c :: cur) s'
  end.

Definition split (s : string) : list string := split_from [] s.

Section Cron.

Context `{!APScheduler}.

Definition cron_field_error : exn :=
  Exn ValueError "Cron expression must have 5 fields: m h dom mon dow".

Definition schedule_cron (func : Callable) (cron : string)
    (job_id : option string) (kwargs : pydict) (s : Sched)
  : Sched * option exn :=
  let fields := split cron in
  if negb (length fields =? 5)%nat then (s, Some cron_field_error)
  else
    match fields with
    | [minute; hour; day; month; dow] =>
        match CronTrigger minute hour day month dow with
        | Raise e => (s, Some e)
        | Ok trigger => add_job func trigger job_id kwargs s
        end
    | _ => (s, Some (Exn ValueError "not enough values to unpack"))
    end.

End Cron.

(** ** Vocabulary of the properties *)

(** [clamp x lo hi] keeps [x] within [lo..hi]. *)
Definition clamp (x lo hi : Z) : Z := Z.max lo (Z.min hi x).

(** The urgency adjustment of the specification for a deadline [delta]
    microseconds away: -2 when it has passed, -1 within an hour, 0 within
    24 hours, +1 beyond, where within means less than. *)
Definition adjustment (delta : Z) : Z :=
  if delta <=? 0 then -2
  else if delta <? hour_us then -1
  else if delta <? day_us then 0
  else 1.

Section Vocabulary.

Context `{!PyLib}.

(** The deadline of a task as an instant comparable with [utcnow()]: a
    naive datetime, or a string that parses to one. *)
Definition deadline_instant (t : pydict) : option Z :=
  let naive d := if dt_aware d then None else Some (dt_us d) in
  match t !! "deadline" with
  | Some (VTime d) => naive d
  | Some (VStr s) =>
      match fromisoformat s with Some d => naive d | None => None end
  | _ => None
  end.

(** The deadline field is a string that does not parse. *)
Definition deadline_unparsable (t : pydict) : Prop :=
  ∃ s, t !! "deadline" = Some (VStr s) ∧ fromisoformat s = None.

(** The fields the jobs read have the types of the schema in the class
    docstring, where a field other than the id may be missing: [id] a
    string, [priority] an int, [deadline] [None], a naive datetime or a
    string that does not parse to an aware one, [status] a string,
    [metadata] a dict. *)
Definition schema_ok (t : pydict) : bool :=
  match t !! "id" with Some (VStr _) => true | _ => false end
  && match t !! "priority" with None | Some (VInt _) => true | _ => false end
  && match t !! "deadline" with
     | None | Some VNone => true
     | Some (VTime d) => negb (dt_aware d)
     | Some (VStr s) =>
         match fromisoformat s with
         | Some d => negb (dt_aware d)
         | None => true
         end
     | _ => false
     end
  && match t !! "status" with None | Some (VStr _) => true | _ => false end
  && match t !! "metadata" with None | Some (VDict _) => true | _ => false end.

Definition registry_ok (reg : registry) : bool :=
  forallb (λ kt, schema_ok kt.2) reg.

(** [int(t.get("priority", 3))] for a task that follows the schema. *)
Definition base_priority (t : pydict) : Z :=
  match t !! "priority" with Some (VInt p) => p | _ => 3 end.

(** The adjustment for a task: that of its deadline when it has one that
    is an instant, and none otherwise. *)
Definition deadline_adjustment (now : Z) (t : pydict) : Z :=
  match deadline_instant t with
  | Some d => adjustment (d - now)
  | None => 0
  end.

(** What the priority recalculation makes of a task that is not done. *)
Definition recalculated (now : Z) (t : pydict) : pydict :=
  <["priority" :=
      VInt (clamp (base_priority t + deadline_adjustment now t) 1 5)]> t.

(** What the deadline sweep makes of a task it marks. *)
Definition marked_overdue (now : Z) (t : pydict) : pydict :=
  let m := match t !! "metadata" with Some (VDict m) => m | _ => ∅ end in
  <["metadata" := VDict (<["overdue_since" := VStr (isoformat now)]> m)]>
    (<["status" := VStr "overdue"]> t).

End Vocabulary.

(** [t["status"] == s], with a missing status reading as [None]. *)
Definition has_status (t : pydict) (s : string) : bool :=
  Py.eq_str (Py.get t "status") s.

(** [t["metadata"][k]], if there is such an entry. *)
Definition metadata_entry (t : pydict) (k : string) : option value :=
  match t !! "metadata" with
  | Some (VDict m) => m !! k
  | _ => None
  end.

(** The metadata field is missing or a dict. *)
Definition metadata_ok (t : pydict) : bool :=
  match t !! "metadata" with None | Some (VDict _) => true | _ => false end.

(** What the failure branch of the suggestion refresh makes of a task. *)
Definition error_attached (msg : string) (t : pydict) : pydict :=
  let m := match t !! "metadata" with Some (VDict m) => m | _ => ∅ end in
  <["metadata" := VDict (<["ai_suggestions_error" := VStr msg]> m)]> t.

(** The default [register_task] gives to an optional field. *)
Definition default_field (f : string) : option value :=
  if String.eqb f "priority" then Some (VInt 3)
  else if String.eqb f "status" then Some (VStr "pending")
  else if String.eqb f "tags" then Some (VList [])
  else if String.eqb f "metadata" then Some (VDict ∅)
  else None.

(** ** Concrete collaborators for the examples *)

Module Sample.

(** Noon of 1 January 2024, in microseconds since the epoch. *)
Definition noon : Z := 1704110400 * second_us.

(** An excerpt of [fromisoformat]: a few timestamps around [noon], one of
    them with a UTC offset; every other string is taken not to parse. *)
Definition iso_table : list (string * datetime) :=
  [ ("2023-12-31T12:00:00", mkdt (noon - day_us) false);
    ("2024-01-01T11:00:00", mkdt (noon - hour_us) false);
    ("2024-01-01T12:00:00", mkdt noon false);
    ("2024-01-01T12:30:00", mkdt (noon + 30 * 60 * second_us) false);
    ("2024-01-01T13:00:00", mkdt (noon + hour_us) false);
    ("2024-01-02T12:00:00", mkdt (noon + day_us) false);
    ("2024-01-01T11:00:00+00:00", mkdt (noon - hour_us) true) ].

Fixpoint parse_iso (tbl : list (string * datetime)) (s : string)
  : option datetime :=
  match tbl with
  | [] => None
  | (s', d) :: tbl' => if String.eqb s' s then Some d else parse_iso tbl' s
  end.

Fixpoint print_iso (tbl : list (string * datetime)) (us : Z) : string :=
  match tbl with
  | [] => ""
  | (s, d) :: tbl' =>
      if (dt_us d =? us) && negb (dt_aware d) then s else print_iso tbl' us
  end.

Definition pylib : PyLib :=
  {| fromisoformat := parse_iso iso_table;
     isoformat := print_iso iso_table;
     int_of_str := λ s, if String.eqb s "3" then Some 3 else None;
     fromisoformat_empty := eq_refl |}.

(** The engine of [app/services/ai_engine.py] defines neither method, so
    both calls raise [AttributeError]. *)
Definition default_engine : AIEngine :=
  {| suggest_next_actions := λ _,
       Raise (Exn (OtherError "AttributeError")
                "'AIEngine' object has no attribute 'suggest_next_actions'");
     propose_schedule := λ _,
       Raise (Exn (OtherError "AttributeError")
                "'AIEngine' object has no attribute 'propose_schedule'") |}.

(** An engine that answers: one suggestion for every task, and a proposal
    without a [run_at]. *)
Definition canned_engine : AIEngine :=
  {| suggest_next_actions := λ _, Ok (VStr "review");
     propose_schedule := λ _, Ok (VDict {[ "window" := VStr "morning" ]}) |}.

(** A scheduler that keeps the ids of its jobs and accepts every cron
    field. *)
Definition list_scheduler : APScheduler :=
  {| Sched := list (option string);
     Trigger := list string;
     Callable := unit;
     CronTrigger := λ m h d mo w, Ok [m; h; d; mo; w];
     add_job := λ _ _ id _ s, (app s [id], None) |}.

Definition mk (fields : list (string * value)) : pydict := list_to_map fields.

(** The tasks of the scenarios. *)
Definition t1 : pydict :=
  mk [("id", VStr "t1"); ("deadline", VTime (mkdt (noon - hour_us) false));
      ("status", VStr "pending"); ("priority", VInt 3); ("metadata", VDict ∅)].
Definition t2 : pydict :=
  mk [("id", VStr "t2"); ("priority", VInt 3);
      ("deadline", VTime (mkdt (noon + 30 * 60 * second_us) false));
      ("status", VStr "pending"); ("metadata", VDict ∅)].
Definition t3 : pydict :=
  mk [("id", VStr "t3"); ("priority", VInt 3); ("deadline", VNone);
      ("status", VStr "pending"); ("metadata", VDict ∅)].
(** A finished task that carries the trace of an earlier failure. *)
Definition t4 : pydict :=
  mk [("id", VStr "t4"); ("priority", VInt 2); ("status", VStr "done");
      ("metadata", VDict {[ "ai_suggestions_error" := VStr "timeout" ]})].
(** A task whose deadline is not an ISO timestamp. *)
Definition t5 : pydict :=
  mk [("id", VStr "t5"); ("deadline", VStr "yesterday");
      ("status", VStr "pending")].

Definition reg : registry :=
  [(VStr "t1", t1); (VStr "t2", t2); (VStr "t3", t3); (VStr "t4", t4);
   (VStr "t5", t5)].

End Sample.

(** ** Lifecycle, one-off and interval jobs *)

(** The functions of the module that the scheduler is handed as jobs: the
    three housekeeping methods and the closure [noop] of
    [schedule_task_by_proposal]. *)
Inductive job_func :=
| CheckDeadlines
| RecalculatePriorities
| GenerateAISuggestions
| Noop.

(** More of APScheduler: the constructors [DateTrigger(run_date=)] and
    [IntervalTrigger(seconds=)], [start()] and [shutdown(wait=)] of the
    [BackgroundScheduler], and the function objects of [job_func]. *)
Class APSchedulerRuntime `{!APScheduler} := {
  DateTrigger : value → result Trigger;
  IntervalTrigger : Z → result Trigger;
  scheduler_start : Sched → Sched * option exn;
  scheduler_shutdown : bool → Sched → Sched * option exn;
  callable : job_func → Callable
}.

Section Lifecycle.

Context `{!PyLib, !AIEngine, !APScheduler, !APSchedulerRuntime}.

Definition schedule_once (func : Callable) (run_at : value)
    (job_id : option string) (kwargs : pydict) (s : Sched)
  : Sched * option exn :=
  match DateTrigger run_at with
  | Raise e => (s, Some e)
  | Ok trigger => add_job func trigger job_id kwargs s
  end.

Definition schedule_interval (func : Callable) (seconds : Z)
    (job_id : option string) (kwargs : pydict) (s : Sched)
  : Sched * option exn :=
  match IntervalTrigger seconds with
  | Raise e => (s, Some e)
  | Ok trigger => add_job func trigger job_id kwargs s
  end.

Definition _schedule_housekeeping_jobs (s : Sched) : Sched * option exn :=
  match schedule_interval (callable CheckDeadlines) 300
          (Some "housekeeping:deadlines") ∅ s with
  | (s, Some e) => (s, Some e)
  | (s, None) =>
      match schedule_interval (callable RecalculatePriorities) 600
              (Some "housekeeping:priorities") ∅ s with
      | (s, Some e) => (s, Some e)
      | (s, None) =>
          schedule_interval (callable GenerateAISuggestions) 3600
            (Some "housekeeping:ai_suggestions") ∅ s
      end
  end.

(** The state of a [TaskScheduler] object. *)
Record TaskScheduler := {
  scheduler : Sched;
  tasks : registry;
  _started : bool
}.

Definition start (self : TaskScheduler) : TaskScheduler * option exn :=
  if _started self then (self, None)
  else
    match scheduler_start (scheduler self) with
    | (s, Some e) =>
        ({| scheduler := s; tasks := tasks self; _started := false |}, Some e)
    | (s, None) =>
        match _schedule_housekeeping_jobs s with
        | (s, Some e) =>
            ({| scheduler := s; tasks := tasks self; _started := false |},
             Some e)
        | (s, None) =>
            ({| scheduler := s; tasks := tasks self; _started := true |}, None)
        end
    end.

Definition shutdown (wait : bool) (self : TaskScheduler)
  : TaskScheduler * option exn :=
  if _started self then
    match scheduler_shutdown wait (scheduler self) with
    | (s, Some e) =>
        ({| scheduler := s; tasks := tasks self; _started := true |}, Some e)
    | (s, None) =>
        ({| scheduler := s; tasks := tasks self; _started := false |}, None)
    end
  else (self, None).

(** The closure [noop] of [schedule_task_by_proposal], run at [now]: the
    dictionary found under the id is changed in place. *)
Definition noop (task_id : string) (now : Z) (reg : registry)
  : registry * option exn :=
  match reg_get (VStr task_id) reg with
  | None => (reg, None)
  | Some t =>
      if negb (Py.truthy (VDict t)) then (reg, None)
      else
        let t := Py.setdefault "metadata" (VDict ∅) t in
        let (t, r) :=
          Py.setitem2 t "metadata" "executed_at" (VStr (isoformat now)) in
        (reg_set (VStr task_id) t reg, r)
  end.

(** [timedelta(minutes=10)] in microseconds. *)
Definition ten_minutes_us : Z := 10 * 60 * second_us.

(** [schedule_task_by_proposal], with [now] the value of [utcnow()]. *)
Definition schedule_task_by_proposal (task_id : string) (now : Z)
    (reg : registry) (s : Sched) : Sched * result value :=
  match suggest_schedule_for_task task_id reg with
  | Raise e => (s, Raise e)
  | Ok proposal =>
      if negb (Py.truthy proposal) then (s, Ok VNone)
      else
        match proposal with
        | VDict d =>
            let run_at := Py.get d "run_at" in
            let run_at :=
              match run_at with
              | VStr r =>
                  match fromisoformat r with
                  | Some dt => VTime dt
                  | None => VNone
                  end
              | _ => run_at
              end in
            let run_at :=
              if negb (Py.truthy run_at)
              then VTime (mkdt (now + ten_minutes_us) false)
              else run_at in
            let job_id := String.append "task:" (String.append task_id ":once") in
            match schedule_once (callable Noop) run_at (Some job_id)
                    {[ "task_id" := VStr task_id ]} s with
            | (s, Some e) => (s, Raise e)
            | (s, None) => (s, Ok (VStr job_id))
            end
        | _ =>
            (s, Raise (Exn (OtherError "AttributeError")
                         "object has no attribute 'get'"))
        end
  end.

(** The one-off job [task:<id>:once] running [noop] at a given run date,
    with the job id as the result: what [schedule_task_by_proposal] adds
    once it has settled on a run date. *)
Definition proposal_job (task_id : string) (run_at : value) (s : Sched)
  : Sched * result value :=
  let job_id := String.append "task:" (String.append task_id ":once") in
  match schedule_once (callable Noop) run_at (Some job_id)
          {[ "task_id" := VStr task_id ]} s with
  | (s, Some e) => (s, Raise e)
  | (s, None) => (s, Ok (VStr job_id))
  end.

End Lifecycle.

(** ** Helpers of the AI engine *)

(** The methods of [AIEngine] in [app/services/ai_engine.py] that compute
    without a model: [_calculate_priority_score], [_recommend_deadline]
    and [_parse_subtasks]. *)

(** [d[k]] *)
Definition getitem (d : pydict) (k : string) : result value :=
  match d !! k with
  | Some v => Ok v
  | None => Raise (Exn (OtherError "KeyError") k)
  end.

(** [v[0]] *)
Definition first_item (v : value) : result value :=
  match v with
  | VList (x :: _) => Ok x
  | VList [] => Raise (Exn (OtherError "IndexError") "list index out of range")
  | VStr (String c _) => Ok (VStr (String c EmptyString))
  | VStr EmptyString =>
      Raise (Exn (OtherError "IndexError") "string index out of range")
  | VDict _ => Raise (Exn (OtherError "KeyError") "0")
  | _ => Raise (Exn TypeError "object is not subscriptable")
  end.

(** The dict [urgency_scores]. *)
Definition urgency_scores (label : string) : option Z :=
  if String.eqb label "urgent" then Some 90
  else if String.eqb label "high priority" then Some 70
  else if String.eqb label "medium priority" then Some 50
  else if String.eqb label "low priority" then Some 30
  else None.

(** [urgency_scores.get(v, 50)] *)
Definition urgency_score (v : value) : result Z :=
  match v with
  | VStr label =>
      Ok (match urgency_scores label with Some n => n | None => 50 end)
  | VList _ | VDict _ => Raise (Exn TypeError "unhashable type")
  | _ => Ok 50
  end.

Definition _calculate_priority_score (sentiment urgency : pydict)
    (deadline : value) : result Z :=
  match getitem urgency "labels" with
  | Raise e => Raise e
  | Ok labels =>
      match first_item labels with
      | Raise e => Raise e
      | Ok top =>
          match urgency_score top with
          | Raise e => Raise e
          | Ok score =>
              match getitem sentiment "label" with
              | Raise e => Raise e
              | Ok label =>
                  let score :=
                    if Py.eq_str label "NEGATIVE" then score + 10 else score in
                  let score := if Py.truthy deadline then score else score in
                  Ok (Z.min 100 (Z.max 0 score))
              end
          end
      end
  end.

(** [_recommend_deadline] on the integer scores that
    [_calculate_priority_score] produces. *)
Definition _recommend_deadline (priority_score : Z) : string :=
  if 80 <=? priority_score then "within 24 hours"
  else if 60 <=? priority_score then "within 3 days"
  else if 40 <=? priority_score then "within 1 week"
  else "within 2 weeks".

(** [s.lstrip()] and [s.rstrip()] for the characters that satisfy [p]. *)
Fixpoint lstrip_by (p : ascii → bool) (s : string) : string :=
  match s with
  | EmptyString => EmptyString
  | String c s' => if p c then lstrip_by p s' else s
  end.

Fixpoint rstrip_by (p : ascii → bool) (s : string) : string :=
  match s with
  | EmptyString => EmptyString
  | String c s' =>
      match rstrip_by p s' with
      | EmptyString => if p c then EmptyString else String c EmptyString
      | r => String c r
      end
  end.

(** [s.strip()] *)
Definition strip (s : string) : string :=
  rstrip_by isspace (lstrip_by isspace s).

(** [c in chars] *)
Definition char_in (chars : string) (c : ascii) : bool :=
  existsb (Ascii.eqb c) (list_ascii_of_string chars).

(** [s.lstrip(chars)] *)
Definition lstrip_chars (chars : string) (s : string) : string :=
  lstrip_by (char_in chars) s.

(** [s.split(sep)] for a separator of one character; [cur] is the piece
    being read, last character first. *)
Fixpoint split_on (sep : ascii) (cur : list ascii) (s : string) : list string :=
  match s with
  | EmptyString => [string_of_list_ascii (rev cur)]
  | String c s' =>
      if Ascii.eqb c sep then string_of_list_ascii (rev cur) :: split_on sep [] s'
      else split_on sep (c :: cur) s'
  end.

(** [c.isdigit()] for a code point below 256: the ten digits and the
    superscripts 2, 3 and 1. *)
Definition isdigit (c : ascii) : bool :=
  let n := nat_of_ascii c in
  ((48 <=? n) && (n <=? 57) || (n =? 178) || (n =? 179) || (n =? 185))%nat.

Definition newline : ascii := "010"%char.

(** The characters [_parse_subtasks] strips from the front of a line. *)
Definition bullet_chars : string := "0123456789.-) ".

Definition subtask (title : string) : pydict :=
  <["title" := VStr title]> (<["status" := VStr "pending"]> ∅).

(** The body of the loop of [_parse_subtasks]: the subtask a line gives,
    if any. *)
Definition subtask_of_line (line : string) : option pydict :=
  let line := strip line in
  match line with
  | EmptyString => None
  | String c _ =>
      if isdigit c || Ascii.eqb c "-"%char then
        let task_text := lstrip_chars bullet_chars line in
        match task_text with
        | EmptyString => None
        | _ => Some (subtask task_text)
        end
      else None
  end.

Definition _parse_subtasks (text : string) : list pydict :=
  omap subtask_of_line (split_on newline [] (strip text)).

(** A numbered or bulleted item as the model is asked to write it: a
    prefix made of bullet characters that starts with a digit or a dash,
    and a title that is not empty, has no line break, does not start with
    a bullet character and does not end with whitespace. *)
Definition clean_item (item : string * string) : bool :=
  let (prefix, title) := item in
  match prefix with
  | EmptyString => false
  | String c _ => isdigit c || Ascii.eqb c "-"%char
  end
  && forallb (char_in bullet_chars) (list_ascii_of_string prefix)
  && negb (String.eqb title EmptyString)
  && String.eqb (lstrip_chars bullet_chars title) title
  && String.eqb (rstrip_by isspace title) title
  && forallb (λ c, negb (Ascii.eqb c newline)) (list_ascii_of_string title).

(** The string has no line break. *)
Definition no_newline (s : string) : bool :=
  forallb (λ c, negb (Ascii.eqb c newline)) (list_ascii_of_string s).

(** The text of the items, one per line. *)
Definition item_lines (items : list (string * string)) : string :=
  String.concat (String newline EmptyString)
    (map (λ item, String.append item.1 item.2) items).

(** ** Vocabulary of the further properties *)

(** A field as [split] returns them: not empty and without whitespace. *)
Definition is_field (f : string) : bool :=
  negb (String.eqb f EmptyString)
  && forallb (λ c, negb (isspace c)) (list_ascii_of_string f).

Section MoreVocabulary.

Context `{!PyLib}.

(** The deadline sweep at [now] has to mark the task: it is neither done
    nor overdue and its deadline is an instant before [now]. *)
Definition sweep_marks (now : Z) (t : pydict) : bool :=
  negb (has_status t "done") && negb (has_status t "overdue")
  && match deadline_instant t with Some d => d <? now | None => false end.

End MoreVocabulary.

(** What a refresh that succeeds stores for a task: the entry of the
    answer for the task's id when the answer is a dict, the answer itself
    otherwise. *)
Definition picked_suggestion (suggestions : value) (t : pydict) : value :=
  match suggestions with
  | VDict d =>
      match t !! "id" with Some (VStr id) => Py.get d id | _ => VNone end
  | _ => suggestions
  end.

Definition suggestion_attached (suggestions : value) (t : pydict) : pydict :=
  let m := match t !! "metadata" with Some (VDict m) => m | _ => ∅ end in
  <["metadata" :=
      VDict (<["ai_suggestions" := picked_suggestion suggestions t]> m)]> t.

(** The registry after [n] runs of a job in a row. *)
Definition cycles (job : registry → registry * option exn) (n : nat)
    (reg : registry) : registry :=
  Nat.iter n (λ r, (job r).1) reg.

(** ** More concrete collaborators *)

Module SampleRuntime.

(** The triggers of [Sample.list_scheduler] are lists of strings. *)
Definition date_trigger : @Trigger Sample.list_scheduler := ["date"].
Definition interval_trigger : @Trigger Sample.list_scheduler := ["interval"].
Definition any_callable : @Callable Sample.list_scheduler := tt.

(** The runtime of [Sample.list_scheduler]: every trigger is accepted. *)
Definition runtime : @APSchedulerRuntime Sample.list_scheduler :=
  {| DateTrigger := λ _, Ok date_trigger;
     IntervalTrigger := λ _, Ok interval_trigger;
     scheduler_start := λ s, (s, None);
     scheduler_shutdown := λ _ s, (s, None);
     callable := λ _, any_callable |}.

(** A runtime that refuses the hourly interval of the suggestion
    refresh. *)
Definition refusing : @APSchedulerRuntime Sample.list_scheduler :=
  {| DateTrigger := λ _, Ok date_trigger;
     IntervalTrigger := λ n,
       if n =? 3600 then Raise (Exn ValueError "refused")
       else Ok interval_trigger;
     scheduler_start := λ s, (s, None);
     scheduler_shutdown := λ _ s, (s, None);
     callable := λ _, any_callable |}.

Definition fresh : @TaskScheduler Sample.list_scheduler :=
  {| scheduler := ([] : @Sched Sample.list_scheduler);
     tasks := Sample.reg; _started := false |}.

(** An engine whose proposal carries a time that does not parse. *)
Definition vague_engine : AIEngine :=
  {| suggest_next_actions := λ _, Ok VNone;
     propose_schedule := λ _, Ok (VDict {[ "run_at" := VStr "soon" ]}) |}.

(** An engine whose proposal is a string. *)
Definition chatty_engine : AIEngine :=
  {| suggest_next_actions := λ _, Ok VNone;
     propose_schedule := λ _, Ok (VStr "tomorrow morning") |}.

End SampleRuntime.

(** * Properties *)

(** Splits a hypothesis [schema_ok t = true] into one fact per field. *)
Ltac schema_fields H :=
  unfold schema_ok in H; rewrite !andb_true_iff in H;
  destruct H as ((((?Hid & ?Hpr) & ?Hdl) & ?Hst) & ?Hmd).

(** ** The registry and its loop *)

Lemma reg_get_elem (k : value) (t : pydict) (reg : registry) :
  reg_get k reg = Some t → ∃ k', (k', t) ∈ reg.
Proof.
  induction reg as [|[k' t'] rest IH]; simpl; [done|].
  destruct (Py.key_eqb k' k).
  - intros [= ->]. exists k'. left.
  - intros H. destruct (IH H) as [k'' Hin]. exists k''. by right.
Qed.

(** Mapping over the values keeps every key where it is. *)
Lemma reg_get_map (f : pydict → pydict) (k : value) (reg : registry) :
  reg_get k (map (λ kt, (kt.1, f kt.2)) reg) = f <$> reg_get k reg.
Proof.
  induction reg as [|[k' t'] rest IH]; simpl; [done|].
  by destruct (Py.key_eqb k' k).
Qed.

(** A loop whose body never raises on the tasks at hand visits them all. *)
Lemma for_each_total (body : pydict → pydict * option exn) (reg : registry) :
  (∀ k t, (k, t) ∈ reg → (body t).2 = None) →
  for_each body reg = (map (λ kt, (kt.1, (body kt.2).1)) reg, None).
Proof.
  induction reg as [|[k t] rest IH]; intros Hok; simpl; [done|].
  pose proof (Hok k t ltac:(left)) as Hhd.
  destruct (body t) as [t' [e|]]; simpl in *; [done|].
  rewrite IH; [done|].
  intros k' t'' Hin. apply (Hok k' t''). by right.
Qed.

(** However far a loop gets, a task that its body leaves alone is found
    unchanged afterwards. *)
Lemma for_each_fixed (body : pydict → pydict * option exn) (k : value)
    (t : pydict) (reg : registry) :
  reg_get k reg = Some t → (body t).1 = t →
  reg_get k (for_each body reg).1 = Some t.
Proof.
  intros Hget Hfix. induction reg as [|[k' t'] rest IH]; simpl in *; [done|].
  destruct (Py.key_eqb k' k) eqn:Hk.
  - injection Hget as ->.
    destruct (body t) as [t1 [e|]]; simpl in *; subst t1.
    + by rewrite Hk.
    + destruct (for_each body rest); simpl. by rewrite Hk.
  - specialize (IH Hget).
    destruct (body t') as [t1 [e|]]; simpl.
    + by rewrite Hk.
    + destruct (for_each body rest); simpl in *. by rewrite Hk.
Qed.

Lemma registry_ok_elem `{!PyLib} (reg : registry) (k : value) (t : pydict) :
  registry_ok reg = true → (k, t) ∈ reg → schema_ok t = true.
Proof.
  unfold registry_ok. rewrite forallb_forall. intros Hall Hin.
  apply (Hall (k, t)). by apply list_elem_of_In.
Qed.

Lemma registry_ok_get `{!PyLib} (reg : registry) (k : value) (t : pydict) :
  registry_ok reg = true → reg_get k reg = Some t → schema_ok t = true.
Proof.
  intros Hok Hget. destruct (reg_get_elem _ _ _ Hget) as [k' Hin].
  by eapply registry_ok_elem.
Qed.

(** ** Deadline sweep *)

Section DeadlineSweep.

Context `{!PyLib}.

Lemma schema_ok_metadata (t : pydict) : schema_ok t = true → metadata_ok t = true.
Proof.
  unfold schema_ok, metadata_ok. rewrite !andb_true_iff. tauto.
Qed.

Lemma setitem2_after_setdefault (t : pydict) (k : string) (v : value) :
  metadata_ok t = true →
  Py.setitem2 (Py.setdefault "metadata" (VDict ∅) t) "metadata" k v
  = (<["metadata" :=
         VDict (<[k := v]>
                  (match t !! "metadata" with Some (VDict m) => m | _ => ∅ end))]> t,
     None).
Proof.
  unfold metadata_ok, Py.setitem2, Py.setdefault.
  destruct (t !! "metadata") as [[]|] eqn:Hm; try done.
  - intros _. by rewrite Hm.
  - intros _. rewrite lookup_insert_eq. by rewrite insert_insert_eq.
Qed.

Lemma check_deadline_marks (now d : Z) (t : pydict) :
  schema_ok t = true →
  deadline_instant t = Some d → d < now →
  has_status t "done" = false → has_status t "overdue" = false →
  check_deadline now t = (marked_overdue now t, None).
Proof.
  intros Hok Hd Hlt Hdone Hover.
  pose proof (schema_ok_metadata _ Hok) as Hmeta. schema_fields Hok.
  unfold check_deadline, marked_overdue.
  unfold has_status in *. rewrite Hdone. rewrite orb_false_r.
  unfold deadline_instant in Hd. unfold Py.get in *.
  assert (Hhash : Py.hashable
            match t !! "status" with Some v => v | None => VNone end = true).
  { destruct (t !! "status") as [[]|]; done. }
  assert (Hmark :
    (let t0 := <["status" := VStr "overdue"]> t in
     let t1 := Py.setdefault "metadata" (VDict ∅) t0 in
     Py.setitem2 t1 "metadata" "overdue_since" (VStr (isoformat now)))
    = (<["metadata" :=
          VDict (<["overdue_since" := VStr (isoformat now)]>
                   match t !! "metadata" with Some (VDict m) => m | _ => ∅ end)]>
         (<["status" := VStr "overdue"]> t), None)).
  { cbv zeta. rewrite setitem2_after_setdefault.
    - by rewrite lookup_insert_ne.
    - unfold metadata_ok in *. by rewrite lookup_insert_ne. }
  assert (Hcmp : (d <? now) = true) by by apply Z.ltb_lt.
  unfold Py.in_str_set. rewrite Hhash, Hover, Hdone. simpl orb.
  destruct (t !! "deadline") as [[| |s|dt| |]|] eqn:Hdeadline; try done.
  - destruct (fromisoformat s) as [dt|] eqn:Hparse; [|done].
    destruct (dt_aware dt) eqn:Haw; [done|]. injection Hd as Hd; subst d.
    assert (s ≠ "") as Hne.
    { intros ->. rewrite fromisoformat_empty in Hparse. done. }
    simpl Py.truthy. apply String.eqb_neq in Hne. rewrite Hne. simpl.
    rewrite Haw, Hcmp. exact Hmark.
  - destruct (dt_aware dt) eqn:Haw; [done|]. injection Hd as Hd; subst d.
    simpl. rewrite Haw, Hcmp. exact Hmark.
Qed.

Lemma check_deadline_untouched (now : Z) (t : pydict) :
  Py.get t "deadline" = VNone ∨ has_status t "done" = true
  ∨ has_status t "overdue" = true →
  (check_deadline now t).1 = t.
Proof.
  unfold check_deadline, has_status.
  intros [Hnone | [Hdone | Hover]].
  - by rewrite Hnone.
  - rewrite Hdone, orb_true_r. done.
  - assert (Hin : Py.in_str_set (Py.get t "status") "overdue" "done" = Ok true).
    { unfold Py.in_str_set. rewrite Hover.
      destruct (Py.get t "status"); done. }
    rewrite Hin. repeat case_match; done.
Qed.

Lemma check_deadline_unparsable (now : Z) (t : pydict) :
  deadline_unparsable t → check_deadline now t = (t, None).
Proof.
  intros (s & Hs & Hparse). unfold check_deadline, Py.get.
  rewrite Hs, Hparse. simpl. by case_match.
Qed.

Lemma check_deadline_safe (now : Z) (t : pydict) :
  schema_ok t = true → (check_deadline now t).2 = None.
Proof.
  intros Hok. pose proof (schema_ok_metadata _ Hok) as Hmeta.
  schema_fields Hok. unfold check_deadline.
  assert (Hhash : Py.hashable (Py.get t "status") = true).
  { unfold Py.get. destruct (t !! "status") as [[]|]; done. }
  assert (Hmark : ∀ v,
    (Py.setitem2 (Py.setdefault "metadata" (VDict ∅)
                    (<["status" := VStr "overdue"]> t))
       "metadata" "overdue_since" v).2 = None).
  { intros v. rewrite setitem2_after_setdefault; [done|].
    unfold metadata_ok in *. by rewrite lookup_insert_ne. }
  unfold Py.in_str_set. rewrite Hhash.
  destruct (Py.eq_str (Py.get t "status") "done"); [by rewrite orb_true_r|].
  rewrite orb_false_r. unfold Py.get.
  destruct (t !! "deadline") as [[| |s|dt| |]|]; try done.
  - destruct (negb _); [done|].
    destruct (fromisoformat s) as [dt|]; [|done]. simpl.
    apply negb_true_iff in Hdl. rewrite Hdl.
    destruct (_ <? now); [|done]. destruct (_ || false); [done|]. apply Hmark.
  - simpl. apply negb_true_iff in Hdl. rewrite Hdl.
    destruct (_ <? now); [|done]. destruct (_ || false); [done|]. apply Hmark.
Qed.

Lemma marked_overdue_status (now : Z) (t : pydict) :
  marked_overdue now t !! "status" = Some (VStr "overdue").
Proof.
  unfold marked_overdue. rewrite lookup_insert_ne; [|done].
  apply lookup_insert_eq.
Qed.

Lemma marked_overdue_since (now : Z) (t : pydict) :
  metadata_entry (marked_overdue now t) "overdue_since"
  = Some (VStr (isoformat now)).
Proof.
  unfold metadata_entry, marked_overdue.
  rewrite lookup_insert_eq. apply lookup_insert_eq.
Qed.

(** C1.  On a registry whose tasks follow the schema, one deadline sweep
    completes and turns every task whose deadline lies before [now] and
    whose status is neither done nor overdue into an overdue task whose
    metadata entry [overdue_since] is the timestamp of the sweep.  On any
    registry, a task without a deadline, or one that is done or overdue
    already, is the same after the sweep. *)
Theorem C1_deadline_sweep (now : Z) (reg : registry) :
  (registry_ok reg = true →
   ∃ reg', _check_deadlines now reg = (reg', None) ∧
     ∀ k t d, reg_get k reg = Some t →
       deadline_instant t = Some d → d < now →
       has_status t "done" = false → has_status t "overdue" = false →
       ∃ t', reg_get k reg' = Some t'
             ∧ t' !! "status" = Some (VStr "overdue")
             ∧ metadata_entry t' "overdue_since" = Some (VStr (isoformat now)))
  ∧ (∀ k t, reg_get k reg = Some t →
       Py.get t "deadline" = VNone ∨ has_status t "done" = true
       ∨ has_status t "overdue" = true →
       reg_get k (_check_deadlines now reg).1 = Some t).
Proof.
  split.
  - intros Hok. eexists. split.
    + apply for_each_total. intros k t Hin.
      apply check_deadline_safe. by eapply registry_ok_elem.
    + intros k t d Hget Hd Hlt Hdone Hover.
      exists (marked_overdue now t).
      rewrite (reg_get_map (λ t, (check_deadline now t).1)), Hget. simpl.
      erewrite check_deadline_marks by eauto using registry_ok_get.
      auto using marked_overdue_status, marked_overdue_since.
  - intros k t Hget Hcase. apply for_each_fixed; [done|].
    by apply check_deadline_untouched.
Qed.

(** C10.  A task whose deadline is a string that does not parse is
    passed over by the deadline sweep: the loop body returns normally
    with the task as it was, and the task is found unchanged in the
    registry after the sweep, whatever instant the string was meant to
    name. *)
Theorem C10_unparsable_deadline_skipped (now : Z) (reg : registry)
    (k : value) (t : pydict) :
  reg_get k reg = Some t → deadline_unparsable t →
  check_deadline now t = (t, None)
  ∧ reg_get k (_check_deadlines now reg).1 = Some t.
Proof.
  intros Hget Hbad.
  pose proof (check_deadline_unparsable now t Hbad) as Hskip.
  split; [done|]. apply for_each_fixed; [done|]. by rewrite Hskip.
Qed.

End DeadlineSweep.

(** Scenario of C1: task [t1] was due an hour before noon; the sweep at
    noon marks it. *)
Lemma C1_deadline_sweep_witness :
  let reg' := (@_check_deadlines Sample.pylib Sample.noon Sample.reg).1 in
  (∃ t', reg_get (VStr "t1") reg' = Some t'
         ∧ t' !! "status" = Some (VStr "overdue")
         ∧ metadata_entry t' "overdue_since" = Some (VStr "2024-01-01T12:00:00"))
  ∧ reg_get (VStr "t3") reg' = Some Sample.t3
  ∧ reg_get (VStr "t4") reg' = Some Sample.t4.
Proof.
  destruct (@C1_deadline_sweep Sample.pylib Sample.noon Sample.reg)
    as [Hrun Hsame].
  destruct (Hrun eq_refl) as (reg' & Heq & Hall).
  destruct (Hall (VStr "t1") Sample.t1 (Sample.noon - hour_us)
              eq_refl eq_refl eq_refl eq_refl eq_refl) as (t' & Hget & Hst & Hmd).
  split; [|split].
  - exists t'. rewrite Heq. simpl. auto.
  - exact (Hsame (VStr "t3") Sample.t3 eq_refl (or_introl eq_refl)).
  - exact (Hsame (VStr "t4") Sample.t4 eq_refl (or_intror (or_introl eq_refl))).
Defined.

(** Scenario of C10: the deadline of [t5] reads "yesterday". *)
Lemma C10_unparsable_deadline_witness :
  @check_deadline Sample.pylib Sample.noon Sample.t5 = (Sample.t5, None)
  ∧ reg_get (VStr "t5")
      (@_check_deadlines Sample.pylib Sample.noon Sample.reg).1 = Some Sample.t5.
Proof.
  apply (@C10_unparsable_deadline_skipped Sample.pylib).
  - reflexivity.
  - exists "yesterday". split; reflexivity.
Defined.

(** ** Priority recalculation *)

Lemma adjustment_cases (delta : Z) :
  (adjustment delta = -2 ↔ delta ≤ 0)
  ∧ (adjustment delta = -1 ↔ 0 < delta < hour_us)
  ∧ (adjustment delta = 0 ↔ hour_us ≤ delta < day_us)
  ∧ (adjustment delta = 1 ↔ day_us ≤ delta).
Proof.
  unfold adjustment, hour_us, day_us, second_us.
  destruct (Z.leb_spec delta 0); [lia|].
  destruct (Z.ltb_spec delta (3600 * 1000000)); [lia|].
  destruct (Z.ltb_spec delta (24 * 3600 * 1000000)); lia.
Qed.

Section PriorityRecalculation.

Context `{!PyLib}.

Lemma recalculate_priority_done (now : Z) (t : pydict) :
  has_status t "done" = true → recalculate_priority now t = (t, None).
Proof. unfold recalculate_priority, has_status. by intros ->. Qed.

Lemma recalculate_priority_spec (now : Z) (t : pydict) :
  schema_ok t = true → has_status t "done" = false →
  recalculate_priority now t = (recalculated now t, None).
Proof.
  intros Hok Hdone. schema_fields Hok.
  unfold recalculate_priority, recalculated, has_status in *. rewrite Hdone.
  unfold base_priority, deadline_adjustment, deadline_instant.
  unfold Py.get_default, Py.get, clamp, urgency_bump, adjustment, sub_now.
  assert (Hbase :
    py_int (match t !! "priority" with Some v => v | None => VInt 3 end)
    = Ok (match t !! "priority" with Some (VInt p) => p | _ => 3 end)).
  { destruct (t !! "priority") as [[]|]; done. }
  rewrite Hbase. clear Hbase Hpr.
  destruct (t !! "deadline") as [[| |s|dt| |]|]; try done; simpl.
  - destruct (fromisoformat s) as [dt|]; [|done]. simpl.
    apply negb_true_iff in Hdl. rewrite Hdl.
    destruct (_ <=? 0); [done|]. destruct (_ <? hour_us); [done|].
    by destruct (_ <? day_us).
  - apply negb_true_iff in Hdl. rewrite Hdl.
    destruct (_ <=? 0); [done|]. destruct (_ <? hour_us); [done|].
    by destruct (_ <? day_us).
Qed.

Lemma recalculate_priority_safe (now : Z) (t : pydict) :
  schema_ok t = true → (recalculate_priority now t).2 = None.
Proof.
  intros Hok. destruct (has_status t "done") eqn:Hdone.
  - by rewrite recalculate_priority_done.
  - by rewrite recalculate_priority_spec.
Qed.

(** On a registry that follows the schema the job visits every task. *)
Lemma recalculate_priorities_run (now : Z) (reg : registry) :
  registry_ok reg = true →
  _recalculate_priorities now reg
  = (map (λ kt, (kt.1, (recalculate_priority now kt.2).1)) reg, None).
Proof.
  intros Hok. apply for_each_total. intros k t Hin.
  apply recalculate_priority_safe. by eapply registry_ok_elem.
Qed.

Lemma recalculate_priorities_get (now : Z) (reg : registry) (k : value)
    (t : pydict) :
  registry_ok reg = true → reg_get k reg = Some t →
  has_status t "done" = false →
  reg_get k (_recalculate_priorities now reg).1 = Some (recalculated now t).
Proof.
  intros Hok Hget Hdone. rewrite recalculate_priorities_run by done.
  cbn [fst]. rewrite (reg_get_map (λ t, (recalculate_priority now t).1)), Hget.
  simpl.
  by erewrite recalculate_priority_spec by eauto using registry_ok_get.
Qed.

(** The recalculation writes an int into [priority] and nothing else, so
    its result follows the schema again, with the same status and the
    same deadline. *)
Lemma recalculated_schema_ok (now : Z) (t : pydict) :
  schema_ok t = true → schema_ok (recalculated now t) = true.
Proof.
  unfold schema_ok, recalculated.
  rewrite lookup_insert_eq, !lookup_insert_ne by done.
  rewrite !andb_true_iff. tauto.
Qed.

Lemma recalculated_status (now : Z) (t : pydict) (s : string) :
  has_status (recalculated now t) s = has_status t s.
Proof.
  unfold has_status, Py.get, recalculated. by rewrite lookup_insert_ne.
Qed.

Lemma recalculated_adjustment (now now' : Z) (t : pydict) :
  deadline_adjustment now' (recalculated now t) = deadline_adjustment now' t.
Proof.
  unfold deadline_adjustment, deadline_instant, recalculated.
  by rewrite lookup_insert_ne.
Qed.

Lemma recalculated_priority (now : Z) (t : pydict) :
  recalculated now t !! "priority"
  = Some (VInt (clamp (base_priority t + deadline_adjustment now t) 1 5)).
Proof. unfold recalculated. apply lookup_insert_eq. Qed.

Lemma registry_ok_recalculated (now : Z) (reg : registry) :
  registry_ok reg = true →
  registry_ok (_recalculate_priorities now reg).1 = true.
Proof.
  intros Hok. rewrite recalculate_priorities_run by done. simpl.
  unfold registry_ok in *. rewrite forallb_forall in *.
  intros [k t'] Hin. apply in_map_iff in Hin as ([k0 t] & [= <- <-] & Hin).
  specialize (Hok _ Hin). simpl in *.
  destruct (has_status t "done") eqn:Hdone.
  - by rewrite recalculate_priority_done.
  - rewrite recalculate_priority_spec by done. by apply recalculated_schema_ok.
Qed.

(** C2.  On a registry whose tasks follow the schema, one priority
    recalculation completes and, for every task that is not done, has a
    deadline that is an instant [d] and a priority field [base], sets the
    priority to [clamp (base + adjustment) 1 5], where the adjustment is
    -2 for a deadline at or before [now], -1 for one less than an hour
    away, 0 for one less than 24 hours away and +1 for one further away.
    A task of priority 3 whose deadline is 30 minutes away gets
    priority 2. *)
Theorem C2_priority_recalculation (now : Z) (reg : registry) :
  registry_ok reg = true →
  ∃ reg', _recalculate_priorities now reg = (reg', None) ∧
    ∀ k t d base, reg_get k reg = Some t →
      has_status t "done" = false →
      deadline_instant t = Some d → t !! "priority" = Some (VInt base) →
      reg_get k reg'
      = Some (<["priority" := VInt (clamp (base + adjustment (d - now)) 1 5)]> t)
      ∧ (adjustment (d - now) = -2 ↔ d ≤ now)
      ∧ (adjustment (d - now) = -1 ↔ now < d < now + hour_us)
      ∧ (adjustment (d - now) = 0 ↔ now + hour_us ≤ d < now + day_us)
      ∧ (adjustment (d - now) = 1 ↔ now + day_us ≤ d)
      ∧ (base = 3 → d = now + 30 * 60 * second_us →
         reg_get k reg' = Some (<["priority" := VInt 2]> t)).
Proof.
  intros Hok. eexists. split; [by apply recalculate_priorities_run|].
  intros k t d base Hget Hdone Hd Hbase.
  pose proof (recalculate_priorities_get now reg k t Hok Hget Hdone) as Hnew.
  rewrite recalculate_priorities_run in Hnew by done. simpl in Hnew.
  assert (Hrec : recalculated now t
            = <["priority" := VInt (clamp (base + adjustment (d - now)) 1 5)]> t).
  { unfold recalculated, base_priority, deadline_adjustment.
    by rewrite Hbase, Hd. }
  rewrite Hrec in Hnew.
  destruct (adjustment_cases (d - now)) as (H2 & H1 & H0 & Hp).
  split; [done|]. repeat split; try lia.
  intros -> ->. rewrite Hnew. do 3 f_equal.
  replace (now + 30 * 60 * second_us - now) with (30 * 60 * second_us) by lia.
  reflexivity.
Qed.

(** C3, as the code has it.  On a registry whose tasks follow the schema,
    one priority recalculation leaves the priority of a task that is not
    done and has no deadline at [clamp base 1 5], where [base] is its
    priority field: the adjustment for an absent deadline is 0.  A task
    of priority 3 without a deadline keeps priority 3. *)
Theorem C3_absent_deadline_no_adjustment (now : Z) (reg : registry) :
  registry_ok reg = true →
  ∃ reg', _recalculate_priorities now reg = (reg', None) ∧
    ∀ k t base, reg_get k reg = Some t →
      has_status t "done" = false →
      Py.get t "deadline" = VNone → t !! "priority" = Some (VInt base) →
      reg_get k reg' = Some (<["priority" := VInt (clamp (base + 0) 1 5)]> t)
      ∧ (base = 3 → reg_get k reg' = Some (<["priority" := VInt 3]> t)).
Proof.
  intros Hok. eexists. split; [by apply recalculate_priorities_run|].
  intros k t base Hget Hdone Hnone Hbase.
  pose proof (recalculate_priorities_get now reg k t Hok Hget Hdone) as Hnew.
  rewrite recalculate_priorities_run in Hnew by done. simpl in Hnew.
  assert (Hrec : recalculated now t
            = <["priority" := VInt (clamp (base + 0) 1 5)]> t).
  { unfold recalculated, base_priority, deadline_adjustment, deadline_instant.
    rewrite Hbase. unfold Py.get in Hnone.
    destruct (t !! "deadline") as [[]|]; done. }
  rewrite Hrec in Hnew. split; [done|]. by intros ->.
Qed.

(** C8, as the code has it.  On a registry whose tasks follow the schema,
    two priority recalculations with the same [now] both complete; for a
    task that is not done the first yields [p1 = clamp (base +
    adjustment) 1 5] and the second applies the same adjustment again,
    [p2 = clamp (p1 + adjustment) 1 5].  The second run leaves [p1] as it
    is exactly when the adjustment is 0 or [p1] has reached the bound the
    adjustment pushes to: 1 for a negative adjustment, 5 for a positive
    one. *)
Theorem C8_recalculation_twice (now : Z) (reg : registry) :
  registry_ok reg = true →
  ∃ reg1 reg2,
    _recalculate_priorities now reg = (reg1, None)
    ∧ _recalculate_priorities now reg1 = (reg2, None)
    ∧ ∀ k t, reg_get k reg = Some t → has_status t "done" = false →
        ∃ t1 t2 p1 p2,
          reg_get k reg1 = Some t1 ∧ reg_get k reg2 = Some t2
          ∧ t1 !! "priority" = Some (VInt p1)
          ∧ t2 !! "priority" = Some (VInt p2)
          ∧ p1 = clamp (base_priority t + deadline_adjustment now t) 1 5
          ∧ p2 = clamp (p1 + deadline_adjustment now t) 1 5
          ∧ (p2 = p1 ↔
             deadline_adjustment now t = 0
             ∨ (deadline_adjustment now t < 0 ∧ p1 = 1)
             ∨ (0 < deadline_adjustment now t ∧ p1 = 5)).
Proof.
  intros Hok.
  pose proof (registry_ok_recalculated now reg Hok) as Hok1.
  destruct (_recalculate_priorities now reg) as [reg1 r1] eqn:Hrun1.
  destruct (_recalculate_priorities now reg1) as [reg2 r2] eqn:Hrun2.
  pose proof (recalculate_priorities_run now reg Hok) as E1.
  rewrite Hrun1 in E1. injection E1 as E1 ->.
  simpl in Hok1.
  pose proof (recalculate_priorities_run now reg1 Hok1) as E2.
  rewrite Hrun2 in E2. injection E2 as E2 ->.
  exists reg1, reg2. do 2 (split; [done|]).
  intros k t Hget Hdone.
  pose proof (recalculate_priorities_get now reg k t Hok Hget Hdone) as G1.
  rewrite Hrun1 in G1. simpl in G1.
  pose proof (recalculate_priorities_get now reg1 k _ Hok1 G1) as G2.
  rewrite recalculated_status in G2. specialize (G2 Hdone).
  rewrite Hrun2 in G2. simpl in G2.
  set (a := deadline_adjustment now t).
  set (p1 := clamp (base_priority t + a) 1 5).
  exists (recalculated now t), (recalculated now (recalculated now t)),
    p1, (clamp (p1 + a) 1 5).
  split; [done|]. split; [done|].
  split; [apply recalculated_priority|].
  split.
  { rewrite recalculated_priority, recalculated_adjustment.
    unfold base_priority at 1. by rewrite recalculated_priority. }
  split; [done|]. split; [done|].
  unfold p1, clamp. lia.
Qed.

End PriorityRecalculation.

(** Scenario of C2: [t2] has priority 3 and is due 30 minutes after noon. *)
Lemma C2_priority_recalculation_witness :
  reg_get (VStr "t2")
    (@_recalculate_priorities Sample.pylib Sample.noon Sample.reg).1
  = Some (<["priority" := VInt 2]> Sample.t2).
Proof.
  destruct (@C2_priority_recalculation Sample.pylib Sample.noon Sample.reg eq_refl)
    as (reg' & Heq & Hall).
  destruct (Hall (VStr "t2") Sample.t2 (Sample.noon + 30 * 60 * second_us) 3
              eq_refl eq_refl eq_refl eq_refl) as (_ & _ & _ & _ & _ & Hex).
  rewrite Heq. exact (Hex eq_refl eq_refl).
Defined.

(** The scenario of C3 on the code: [t3] has priority 3 and no deadline,
    and the recalculation leaves it at 3 where the adjustment +1 would
    give 4. *)
Lemma C3_counterexample :
  ∃ t', reg_get (VStr "t3")
          (@_recalculate_priorities Sample.pylib Sample.noon
             [(VStr "t3", Sample.t3)]).1 = Some t'
        ∧ has_status Sample.t3 "done" = false
        ∧ Py.get Sample.t3 "deadline" = VNone
        ∧ Sample.t3 !! "priority" = Some (VInt 3)
        ∧ t' !! "priority" = Some (VInt 3)
        ∧ t' !! "priority" ≠ Some (VInt (clamp (3 + 1) 1 5)).
Proof.
  eexists. split; [reflexivity|]. repeat split; try reflexivity.
  vm_compute. discriminate.
Qed.

Lemma C3_absent_deadline_witness :
  reg_get (VStr "t3")
    (@_recalculate_priorities Sample.pylib Sample.noon Sample.reg).1
  = Some (<["priority" := VInt 3]> Sample.t3).
Proof.
  destruct (@C3_absent_deadline_no_adjustment Sample.pylib Sample.noon
              Sample.reg eq_refl) as (reg' & Heq & Hall).
  destruct (Hall (VStr "t3") Sample.t3 3 eq_refl eq_refl eq_refl eq_refl)
    as [_ Hex].
  rewrite Heq. exact (Hex eq_refl).
Defined.

(** The second run changes what the first produced: [t2], of priority 3
    and due in 30 minutes, goes to 2 and then to 1 with the clock held at
    noon. *)
Lemma C8_counterexample :
  let run := @_recalculate_priorities Sample.pylib Sample.noon in
  let reg1 := (run [(VStr "t2", Sample.t2)]).1 in
  let reg2 := (run reg1).1 in
  ∃ t1 t2,
    Sample.t2 !! "priority" = Some (VInt 3)
    ∧ reg_get (VStr "t2") reg1 = Some t1 ∧ reg_get (VStr "t2") reg2 = Some t2
    ∧ t1 !! "priority" = Some (VInt 2)
    ∧ t2 !! "priority" = Some (VInt 1).
Proof.
  do 2 eexists. split; [reflexivity|].
  split; [reflexivity|]. split; [reflexivity|]. split; reflexivity.
Qed.

Lemma C8_recalculation_twice_witness :
  ∃ reg1 reg2 t1 t2,
    @_recalculate_priorities Sample.pylib Sample.noon Sample.reg = (reg1, None)
    ∧ @_recalculate_priorities Sample.pylib Sample.noon reg1 = (reg2, None)
    ∧ reg_get (VStr "t1") reg1 = Some t1 ∧ reg_get (VStr "t1") reg2 = Some t2
    ∧ t1 !! "priority" = Some (VInt 1) ∧ t2 !! "priority" = Some (VInt 1).
Proof.
  destruct (@C8_recalculation_twice Sample.pylib Sample.noon Sample.reg eq_refl)
    as (reg1 & reg2 & H1 & H2 & Hall).
  destruct (Hall (VStr "t1") Sample.t1 eq_refl eq_refl)
    as (t1 & t2 & p1 & p2 & G1 & G2 & P1 & P2 & E1 & E2 & _).
  exists reg1, reg2, t1, t2. rewrite P1, P2, E2, E1.
  repeat split; assumption || reflexivity.
Defined.

(** ** Suggestion refresh *)

Section SuggestionRefresh.

Context `{!PyLib, !AIEngine}.

Lemma attach_error_spec (msg : string) (t : pydict) :
  metadata_ok t = true → attach_error msg t = (error_attached msg t, None).
Proof.
  intros Hmeta. unfold attach_error, error_attached.
  by rewrite setitem2_after_setdefault.
Qed.

Lemma error_attached_entry (msg : string) (t : pydict) :
  metadata_entry (error_attached msg t) "ai_suggestions_error"
  = Some (VStr msg).
Proof.
  unfold metadata_entry, error_attached.
  rewrite lookup_insert_eq. apply lookup_insert_eq.
Qed.

Lemma error_attached_other (msg : string) (t : pydict) (k : string) :
  metadata_ok t = true → k ≠ "ai_suggestions_error" →
  metadata_entry (error_attached msg t) k = metadata_entry t k.
Proof.
  intros Hmeta Hk. unfold metadata_entry, error_attached, metadata_ok in *.
  rewrite lookup_insert_eq, lookup_insert_ne by done.
  destruct (t !! "metadata") as [[]|]; done.
Qed.

Lemma error_attached_field (msg : string) (t : pydict) (f : string) :
  f ≠ "metadata" → error_attached msg t !! f = t !! f.
Proof. intros Hf. unfold error_attached. by rewrite lookup_insert_ne. Qed.

Lemma attach_suggestion_done (suggestions : value) (t : pydict) :
  has_status t "done" = true → attach_suggestion suggestions t = (t, None).
Proof. unfold attach_suggestion, has_status. by intros ->. Qed.

Lemma attach_suggestion_safe (suggestions : value) (t : pydict) :
  schema_ok t = true → (attach_suggestion suggestions t).2 = None.
Proof.
  intros Hok. pose proof (schema_ok_metadata _ Hok) as Hmeta.
  schema_fields Hok. unfold attach_suggestion. destruct (Py.eq_str _ "done"); [done|].
  assert (Hget : Py.get (Py.setdefault "metadata" (VDict ∅) t) "id"
                 = Py.get t "id").
  { unfold Py.get, Py.setdefault.
    destruct (t !! "metadata"); [done|]. by rewrite lookup_insert_ne. }
  rewrite Hget. unfold Py.get.
  destruct (t !! "id") as [[]|]; try done.
  destruct suggestions; simpl; by rewrite setitem2_after_setdefault.
Qed.

(** When the capability raises, the job runs the failure branch over the
    whole registry. *)
Lemma generate_ai_suggestions_failure (reg : registry) (e : exn) :
  suggest_next_actions (pending_tasks reg) = Raise e →
  _generate_ai_suggestions reg = for_each (attach_error (exn_str e)) reg.
Proof. unfold _generate_ai_suggestions. by intros ->. Qed.

Lemma metadata_all_ok_elem (reg : registry) (k : value) (t : pydict) :
  forallb (λ kt, metadata_ok kt.2) reg = true → (k, t) ∈ reg →
  metadata_ok t = true.
Proof.
  rewrite forallb_forall. intros Hall Hin.
  apply (Hall (k, t)). by apply list_elem_of_In.
Qed.

(** C5.  When the suggestion capability raises and every task's metadata
    is a dict or missing, the refresh returns normally; afterwards every
    task that is not done carries the failure description under
    [ai_suggestions_error], and the [ai_suggestions] entry of every task
    is what it was before. *)
Theorem C5_refresh_failure (reg : registry) (e : exn) :
  suggest_next_actions (pending_tasks reg) = Raise e →
  forallb (λ kt, metadata_ok kt.2) reg = true →
  ∃ reg', _generate_ai_suggestions reg = (reg', None) ∧
    ∀ k t, reg_get k reg = Some t →
      ∃ t', reg_get k reg' = Some t'
        ∧ (has_status t "done" = false →
           metadata_entry t' "ai_suggestions_error" = Some (VStr (exn_str e)))
        ∧ metadata_entry t' "ai_suggestions" = metadata_entry t "ai_suggestions".
Proof.
  intros Hfail Hmeta. rewrite (generate_ai_suggestions_failure reg e) by done.
  eexists. split.
  - apply for_each_total. intros k t Hin.
    rewrite attach_error_spec; [done|]. by eapply metadata_all_ok_elem.
  - intros k t Hget. destruct (reg_get_elem _ _ _ Hget) as [k' Hin].
    pose proof (metadata_all_ok_elem _ _ _ Hmeta Hin) as Ht.
    exists (error_attached (exn_str e) t).
    rewrite (reg_get_map (λ t, (attach_error (exn_str e) t).1)), Hget. simpl.
    rewrite attach_error_spec by done.
    split; [done|]. split.
    + intros _. apply error_attached_entry.
    + by apply error_attached_other.
Qed.

(** The part of C4 that the code keeps: the deadline sweep and the
    priority recalculation leave a task that is done as it is, however
    far they get. *)
Lemma done_untouched_by_sweeps (now : Z) (reg : registry) (k : value)
    (t : pydict) :
  reg_get k reg = Some t → has_status t "done" = true →
  reg_get k (_check_deadlines now reg).1 = Some t
  ∧ reg_get k (_recalculate_priorities now reg).1 = Some t.
Proof.
  intros Hget Hdone. split; apply for_each_fixed; try done.
  - apply check_deadline_untouched. auto.
  - by rewrite recalculate_priority_done.
Qed.

(** So does a suggestion refresh whose capability answers, on a registry
    that follows the schema. *)
Lemma done_untouched_by_refresh_success (reg : registry) (suggestions : value)
    (k : value) (t : pydict) :
  suggest_next_actions (pending_tasks reg) = Ok suggestions →
  registry_ok reg = true →
  reg_get k reg = Some t → has_status t "done" = true →
  ∃ reg', _generate_ai_suggestions reg = (reg', None)
          ∧ reg_get k reg' = Some t.
Proof.
  intros Hans Hok Hget Hdone. unfold _generate_ai_suggestions. rewrite Hans.
  rewrite for_each_total.
  - eexists. split; [done|].
    rewrite (reg_get_map (λ t, (attach_suggestion suggestions t).1)), Hget.
    simpl. by rewrite attach_suggestion_done.
  - intros k' t' Hin. apply attach_suggestion_safe.
    by eapply registry_ok_elem.
Qed.

(** The failure branch writes into the metadata of every task, done or
    not; the other fields, and the other metadata entries, stay. *)
Lemma failure_branch_touches_metadata_only (reg : registry) (e : exn)
    (k : value) (t : pydict) :
  suggest_next_actions (pending_tasks reg) = Raise e →
  forallb (λ kt, metadata_ok kt.2) reg = true →
  reg_get k reg = Some t →
  ∃ t', reg_get k (_generate_ai_suggestions reg).1 = Some t'
    ∧ metadata_entry t' "ai_suggestions_error" = Some (VStr (exn_str e))
    ∧ (∀ f, f ≠ "metadata" → t' !! f = t !! f)
    ∧ (∀ m, m ≠ "ai_suggestions_error" →
            metadata_entry t' m = metadata_entry t m).
Proof.
  intros Hfail Hmeta Hget. rewrite (generate_ai_suggestions_failure reg e) by done.
  destruct (reg_get_elem _ _ _ Hget) as [k' Hin].
  pose proof (metadata_all_ok_elem _ _ _ Hmeta Hin) as Ht.
  exists (error_attached (exn_str e) t). split.
  - rewrite for_each_total.
    + cbn [fst].
      rewrite (reg_get_map (λ t, (attach_error (exn_str e) t).1)), Hget.
      simpl. by rewrite attach_error_spec.
    + intros k0 t0 Hin0. rewrite attach_error_spec; [done|].
      by eapply metadata_all_ok_elem.
  - split; [apply error_attached_entry|].
    split; [apply error_attached_field|].
    intros m Hm. by apply error_attached_other.
Qed.

End SuggestionRefresh.

(** Scenario of C5: with the engine of the repository, which lacks the
    method, the pending task [t1] gets the description of the failure. *)
Lemma C5_refresh_failure_witness :
  ∃ reg' t',
    @_generate_ai_suggestions Sample.default_engine Sample.reg = (reg', None)
    ∧ reg_get (VStr "t1") reg' = Some t'
    ∧ metadata_entry t' "ai_suggestions_error"
      = Some (VStr "'AIEngine' object has no attribute 'suggest_next_actions'")
    ∧ metadata_entry t' "ai_suggestions" = None.
Proof.
  destruct (@C5_refresh_failure Sample.default_engine Sample.reg _ eq_refl eq_refl)
    as (reg' & Heq & Hall).
  destruct (Hall (VStr "t1") Sample.t1 eq_refl) as (t' & Hget & Herr & Hsug).
  exists reg', t'. repeat split; try assumption. exact (Herr eq_refl).
Defined.

(** C4 on the code.  [t4] is done and carries the trace of an earlier
    failure.  A refresh with the engine of the repository, whose missing
    method makes the capability fail, overwrites that metadata entry of
    the finished task. *)
Theorem C4_done_task_mutated_on_failure :
  has_status Sample.t4 "done" = true
  ∧ metadata_entry Sample.t4 "ai_suggestions_error" = Some (VStr "timeout")
  ∧ ∃ t', reg_get (VStr "t4")
            (@_generate_ai_suggestions Sample.default_engine
               [(VStr "t4", Sample.t4)]).1 = Some t'
          ∧ metadata_entry t' "ai_suggestions_error"
            = Some (VStr "'AIEngine' object has no attribute 'suggest_next_actions'")
          ∧ t' ≠ Sample.t4.
Proof.
  split; [reflexivity|]. split; [reflexivity|].
  eexists. split; [reflexivity|]. split; [reflexivity|].
  intros Heq. apply (f_equal (λ t, metadata_entry t "ai_suggestions_error")) in Heq.
  vm_compute in Heq. discriminate.
Qed.

(** ** Registration *)

Lemma key_eqb_eq (a b : value) : Py.key_eqb a b = true → a = b.
Proof.
  destruct a as [|x|x|[xu xa]| |], b as [|y|y|[yu ya]| |]; simpl; try done.
  - intros H%Z.eqb_eq. by subst.
  - intros H%String.eqb_eq. by subst.
  - unfold Py.datetime_eqb. simpl. rewrite andb_true_iff.
    intros [Hu%Z.eqb_eq Ha%Bool.eqb_prop]. by subst.
Qed.

Lemma key_eqb_refl (a : value) : Py.hashable a = true → Py.key_eqb a a = true.
Proof.
  destruct a as [|x|x|[xu xa]| |]; simpl; try done; intros _.
  - apply Z.eqb_refl.
  - apply String.eqb_refl.
  - unfold Py.datetime_eqb. simpl. by rewrite Z.eqb_refl, Bool.eqb_reflx.
Qed.

Lemma reg_get_set_same (k : value) (t : pydict) (reg : registry) :
  Py.hashable k = true → reg_get k (reg_set k t reg) = Some t.
Proof.
  intros Hk. induction reg as [|[k' t'] rest IH]; simpl.
  - by rewrite key_eqb_refl.
  - destruct (Py.key_eqb k' k) eqn:E; simpl; by rewrite E.
Qed.

Lemma reg_get_set_other (id k : value) (t : pydict) (reg : registry) :
  Py.key_eqb id k = false → reg_get k (reg_set id t reg) = reg_get k reg.
Proof.
  intros Hne. induction reg as [|[k' t'] rest IH]; simpl.
  - by rewrite Hne.
  - destruct (Py.key_eqb k' id) eqn:E; simpl.
    + apply key_eqb_eq in E. subst k'. by rewrite Hne.
    + by rewrite IH.
Qed.

Lemma setdefault_lookup (k : string) (v : value) (d : pydict) (f : string) :
  Py.setdefault k v d !! f
  = match d !! f with
    | Some x => Some x
    | None => if String.eqb f k then Some v else None
    end.
Proof.
  unfold Py.setdefault. destruct (String.eqb_spec f k) as [->|Hne].
  - destruct (d !! k) eqn:E; [by rewrite E|]. by rewrite lookup_insert_eq.
  - destruct (d !! k) eqn:E.
    + by destruct (d !! f).
    + rewrite lookup_insert_ne by done. by destruct (d !! f).
Qed.

(** A task that [register_task] stores carries its id, so it is not the
    empty dictionary. *)
Lemma registered_task_nonempty (t t' : pydict) (reg reg' : registry) :
  register_task t reg = ((t', reg'), None) → t' !! "id" = t !! "id" ∧ t' ≠ ∅.
Proof.
  unfold register_task. destruct (t !! "id") as [id|] eqn:Hid; [|done].
  destruct (Py.hashable id); [|done]. intros [= <- _].
  assert (Hkeep : Py.setdefault "metadata" (VDict ∅)
                    (Py.setdefault "tags" (VList [])
                       (Py.setdefault "status" (VStr "pending")
                          (Py.setdefault "priority" (VInt 3) t))) !! "id"
                  = Some id).
  { rewrite !setdefault_lookup. by rewrite Hid. }
  split; [done|]. intros Hempty. by rewrite Hempty in Hkeep.
Qed.

(** C6.  [register_task] raises a [ValueError] exactly when the task has
    no [id]; then the task and the registry are as before.  When the id is
    there (and can be a key), the call returns normally; the task stored
    has every field the caller set, with the default of [default_field]
    for each optional field that was unset; the registry maps the id to
    that task, whatever it held for the id before, and every other key to
    what it held. *)
Theorem C6_register_task (t : pydict) (reg : registry) :
  ((∃ msg, (register_task t reg).2 = Some (Exn ValueError msg)) ↔ t !! "id" = None)
  ∧ (t !! "id" = None → (register_task t reg).1 = (t, reg))
  ∧ (∀ id, t !! "id" = Some id → Py.hashable id = true →
       ∃ t' reg', register_task t reg = ((t', reg'), None)
         ∧ (∀ f, t' !! f
                 = match t !! f with Some v => Some v | None => default_field f end)
         ∧ reg_get id reg' = Some t'
         ∧ (∀ k, Py.key_eqb id k = false → reg_get k reg' = reg_get k reg)).
Proof.
  unfold register_task. split; [|split].
  - destruct (t !! "id") as [id|]; simpl.
    + split; [|done]. intros [msg Hmsg]. by destruct (Py.hashable id).
    + split; [done|]. intros _. by eexists.
  - by intros ->.
  - intros id -> Hhash. rewrite Hhash. do 2 eexists. split; [done|].
    split; [|split].
    + intros f. rewrite !setdefault_lookup. unfold default_field.
      destruct (t !! f); [done|].
      destruct (String.eqb f "priority"); [done|].
      destruct (String.eqb f "status"); [done|].
      by destruct (String.eqb f "tags").
    + by apply reg_get_set_same.
    + intros k Hk. by apply reg_get_set_other.
Qed.

(** Scenario of C6: registering a new task under the id "t1" over the
    sample registry.  The stored task has the defaults and none of the
    fields of the task it replaces. *)
Lemma C6_register_task_witness :
  let t := Sample.mk [("id", VStr "t1"); ("priority", VInt 1)] in
  let anonymous := Sample.mk [("title", VStr "no id")] in
  (∃ t' reg', register_task t Sample.reg = ((t', reg'), None)
     ∧ reg_get (VStr "t1") reg' = Some t'
     ∧ t' !! "priority" = Some (VInt 1)
     ∧ t' !! "status" = Some (VStr "pending")
     ∧ t' !! "tags" = Some (VList [])
     ∧ t' !! "metadata" = Some (VDict ∅)
     ∧ t' !! "deadline" = None
     ∧ reg_get (VStr "t2") reg' = Some Sample.t2)
  ∧ (∃ msg, (register_task anonymous Sample.reg).2 = Some (Exn ValueError msg))
  ∧ (register_task anonymous Sample.reg).1 = (anonymous, Sample.reg).
Proof.
  intros t anonymous. split; [|split].
  - destruct (C6_register_task t Sample.reg) as (_ & _ & Hreg).
    destruct (Hreg (VStr "t1") eq_refl eq_refl)
      as (t' & reg' & Hrun & Hf & Hget & Hother).
    exists t', reg'. split; [exact Hrun|]. split; [exact Hget|].
    rewrite !Hf, (Hother (VStr "t2") eq_refl). repeat split; reflexivity.
  - destruct (C6_register_task anonymous Sample.reg) as ([_ Hraise] & _ & _).
    exact (Hraise eq_refl).
  - destruct (C6_register_task anonymous Sample.reg) as (_ & Hsame & _).
    exact (Hsame eq_refl).
Defined.

(** ** Cron scheduling *)

Section CronProperties.

Context `{!APScheduler}.

(** C7.  [schedule_cron] returns the [ValueError] of the field count,
    with the scheduler as it was, whenever [cron.split()] does not have
    exactly 5 fields, as for ["* * *"]; with 5 fields the outcome is that
    of building the trigger and adding the job. *)
Theorem C7_schedule_cron (func : Callable) (cron : string)
    (job_id : option string) (kwargs : pydict) (s : Sched) :
  (length (split cron) ≠ 5%nat →
   schedule_cron func cron job_id kwargs s = (s, Some cron_field_error))
  ∧ (∀ minute hour day month dow,
       split cron = [minute; hour; day; month; dow] →
       schedule_cron func cron job_id kwargs s
       = match CronTrigger minute hour day month dow with
         | Raise e => (s, Some e)
         | Ok trigger => add_job func trigger job_id kwargs s
         end)
  ∧ exn_cls cron_field_error = ValueError
  ∧ split "* * *" = ["*"; "*"; "*"].
Proof.
  unfold schedule_cron. repeat split.
  - intros Hlen. apply Nat.eqb_neq in Hlen. by rewrite Hlen.
  - intros minute hour day month dow ->. done.
Qed.

End CronProperties.

(** Scenario of C7: three fields are refused and the scheduler keeps its
    jobs; five fields are scheduled. *)
Lemma C7_schedule_cron_witness :
  @schedule_cron Sample.list_scheduler tt "* * *" (Some "job") ∅ [Some "old"]
  = ([Some "old"], Some cron_field_error)
  ∧ @schedule_cron Sample.list_scheduler tt "0 9 * * 1-5" (Some "job") ∅ [Some "old"]
    = ([Some "old"; Some "job"], None).
Proof.
  split.
  - apply (@C7_schedule_cron Sample.list_scheduler). vm_compute. lia.
  - destruct (@C7_schedule_cron Sample.list_scheduler tt "0 9 * * 1-5"
                (Some "job") ∅ [Some "old"]) as (_ & H5 & _).
    exact (H5 "0" "9" "*" "*" "1-5" eq_refl).
Defined.

(** ** On-demand proposal *)

Section Proposal.

Context `{!AIEngine}.

Lemma truthy_nonempty (t : pydict) : t ≠ ∅ → Py.truthy (VDict t) = true.
Proof.
  intros Hne. simpl. destruct (map_to_list t) eqn:E; [|done].
  by apply map_to_list_empty_iff in E.
Qed.

(** C9.  [suggest_schedule_for_task] returns [None], and does not raise,
    when the registry has no task under the id and when the proposal
    capability raises; when the registry has a task under the id (a
    dictionary that is not empty, as every registered task is) and the
    capability answers, it returns the answer. *)
Theorem C9_suggest_schedule_for_task (task_id : string) (reg : registry) :
  (reg_get (VStr task_id) reg = None →
   suggest_schedule_for_task task_id reg = Ok VNone)
  ∧ (∀ t e, reg_get (VStr task_id) reg = Some t →
            propose_schedule t = Raise e →
            suggest_schedule_for_task task_id reg = Ok VNone)
  ∧ (∀ t proposal, reg_get (VStr task_id) reg = Some t → t ≠ ∅ →
                   propose_schedule t = Ok proposal →
                   suggest_schedule_for_task task_id reg = Ok proposal).
Proof.
  unfold suggest_schedule_for_task. repeat split.
  - by intros ->.
  - intros t e -> ->. by destruct (negb _).
  - intros t proposal -> Hne ->. by rewrite truthy_nonempty.
Qed.

End Proposal.

(** Scenario of C9: no task is called "missing"; the engine of the
    repository fails on [t1]; an engine that answers has its answer
    returned. *)
Lemma C9_suggest_schedule_witness :
  @suggest_schedule_for_task Sample.canned_engine "missing" Sample.reg = Ok VNone
  ∧ @suggest_schedule_for_task Sample.default_engine "t1" Sample.reg = Ok VNone
  ∧ @suggest_schedule_for_task Sample.canned_engine "t1" Sample.reg
    = Ok (VDict {[ "window" := VStr "morning" ]}).
Proof.
  destruct (@C9_suggest_schedule_for_task Sample.canned_engine "missing" Sample.reg)
    as (Hmiss & _ & _).
  destruct (@C9_suggest_schedule_for_task Sample.default_engine "t1" Sample.reg)
    as (_ & Hfail & _).
  destruct (@C9_suggest_schedule_for_task Sample.canned_engine "t1" Sample.reg)
    as (_ & _ & Hans).
  split; [exact (Hmiss eq_refl)|]. split.
  - exact (Hfail Sample.t1 _ eq_refl eq_refl).
  - apply (Hans Sample.t1); [reflexivity| |reflexivity].
    intros Hempty. apply (f_equal (λ m, m !! "id")) in Hempty.
    vm_compute in Hempty. discriminate.
Defined.

(** ** Outside the schema *)

(** The hypotheses on the types of the fields are needed: Python raises on
    the operations below, and the exception leaves the job. *)

(** A deadline with a UTC offset cannot be compared with [utcnow()]. *)
Example aware_deadline_raises :
  let t := Sample.mk [("id", VStr "a");
                      ("deadline", VStr "2024-01-01T11:00:00+00:00")] in
  @check_deadline Sample.pylib Sample.noon t
  = (t, Some (Exn TypeError "can't compare offset-naive and offset-aware datetimes")).
Proof. reflexivity. Qed.

(** A metadata field that is [None] does not take an entry: the failure
    branch of the suggestion refresh raises in its turn. *)
Example metadata_none_raises :
  let t := Sample.mk [("id", VStr "a"); ("metadata", VNone)] in
  @_generate_ai_suggestions Sample.default_engine [(VStr "a", t)]
  = ([(VStr "a", t)],
     Some (Exn TypeError "object does not support item assignment")).
Proof. reflexivity. Qed.

(** [split] takes any run of whitespace as one separator: a tab and a
    double space separate fields as a single space does. *)
Example split_whitespace_runs :
  split (String.append "0 9" (String "009"%char "* *  1-5 "))
  = ["0"; "9"; "*"; "*"; "1-5"].
Proof. reflexivity. Qed.

(** * Further properties of the registry *)

Lemma key_eqb_sym (a b : value) : Py.key_eqb a b = Py.key_eqb b a.
Proof.
  destruct a as [|x|x|[xu xa]| |], b as [|y|y|[yu ya]| |]; simpl; try done.
  - apply Z.eqb_sym.
  - apply String.eqb_sym.
  - unfold Py.datetime_eqb. simpl. rewrite Z.eqb_sym. f_equal.
    by destruct xa, ya.
Qed.

Lemma remove_task_cons (task_id : string) (k : value) (t : pydict)
    (reg : registry) :
  remove_task task_id ((k, t) :: reg)
  = if Py.key_eqb k (VStr task_id) then remove_task task_id reg
    else (k, t) :: remove_task task_id reg.
Proof.
  unfold remove_task, registry. rewrite filter_cons. simpl.
  destruct (Py.key_eqb k (VStr task_id)); by case_decide.
Qed.

Lemma remove_task_absent (task_id : string) (reg : registry) :
  reg_get (VStr task_id) reg = None → remove_task task_id reg = reg.
Proof.
  induction reg as [|[k t] rest IH]; [done|].
  rewrite remove_task_cons. simpl.
  destruct (Py.key_eqb k (VStr task_id)); [done|].
  intros Hrest. by rewrite IH.
Qed.

Lemma remove_task_gone (task_id : string) (reg : registry) :
  reg_get (VStr task_id) (remove_task task_id reg) = None.
Proof.
  induction reg as [|[k t] rest IH]; [done|].
  rewrite remove_task_cons.
  destruct (Py.key_eqb k (VStr task_id)) eqn:E; [done|].
  simpl. by rewrite E.
Qed.

(** X1.  [remove_task] takes the task of the given id out of the registry
    and leaves the lookup of every other key as it was; on an id that is
    not registered it returns the registry unchanged, so that removing
    twice is removing once. *)
Theorem X1_remove_task (task_id : string) (reg : registry) :
  reg_get (VStr task_id) (remove_task task_id reg) = None
  ∧ (∀ k, Py.key_eqb (VStr task_id) k = false →
          reg_get k (remove_task task_id reg) = reg_get k reg)
  ∧ (reg_get (VStr task_id) reg = None → remove_task task_id reg = reg)
  ∧ remove_task task_id (remove_task task_id reg) = remove_task task_id reg.
Proof.
  split; [apply remove_task_gone|]. split; [|split].
  - intros k Hk. induction reg as [|[k' t] rest IH]; [done|].
    rewrite remove_task_cons. simpl.
    destruct (Py.key_eqb k' (VStr task_id)) eqn:E.
    + apply key_eqb_eq in E. subst k'. by rewrite Hk.
    + simpl. by rewrite IH.
  - apply remove_task_absent.
  - apply remove_task_absent, remove_task_gone.
Qed.

Lemma X1_remove_task_witness :
  reg_get (VStr "t2") (remove_task "t1" Sample.reg) = Some Sample.t2
  ∧ remove_task "nobody" Sample.reg = Sample.reg.
Proof.
  destruct (X1_remove_task "t1" Sample.reg) as (_ & Hother & _).
  destruct (X1_remove_task "nobody" Sample.reg) as (_ & _ & Habsent & _).
  split.
  - rewrite (Hother (VStr "t2") eq_refl). reflexivity.
  - exact (Habsent eq_refl).
Defined.

Lemma reg_set_absent (k : value) (t : pydict) (reg : registry) :
  reg_get k reg = None → reg_set k t reg = (reg ++ [(k, t)])%list.
Proof.
  induction reg as [|[k' t'] rest IH]; simpl; [done|].
  destruct (Py.key_eqb k' k); [done|]. intros H. by rewrite IH.
Qed.

Lemma reg_set_present (k : value) (t : pydict) (reg : registry) :
  is_Some (reg_get k reg) → map fst (reg_set k t reg) = map fst reg.
Proof.
  induction reg as [|[k' t'] rest IH]; simpl; [by intros [? ?]|].
  destruct (Py.key_eqb k' k); [done|]. intros H. simpl. by rewrite IH.
Qed.

Lemma reg_get_None_notin (k : value) (reg : registry) :
  Py.hashable k = true → reg_get k reg = None → k ∉ map fst reg.
Proof.
  intros Hk. induction reg as [|[k' t'] rest IH]; simpl.
  - intros _. apply not_elem_of_nil.
  - destruct (Py.key_eqb k' k) eqn:E; [done|]. intros Hrest.
    rewrite not_elem_of_cons. split; [|by apply IH].
    intros ->. by rewrite key_eqb_refl in E.
Qed.

Lemma remove_task_app (task_id : string) (reg1 reg2 : registry) :
  remove_task task_id (reg1 ++ reg2)%list
  = (remove_task task_id reg1 ++ remove_task task_id reg2)%list.
Proof. unfold remove_task, registry. apply filter_app. Qed.

(** X2.  Registering a task under an id the registry does not hold and
    removing that id again gives the registry back as it was. *)
Theorem X2_register_then_remove (t : pydict) (task_id : string)
    (reg : registry) :
  t !! "id" = Some (VStr task_id) → reg_get (VStr task_id) reg = None →
  (register_task t reg).2 = None
  ∧ remove_task task_id (register_task t reg).1.2 = reg.
Proof.
  intros Hid Hnew. unfold register_task. rewrite Hid. simpl.
  split; [done|].
  rewrite reg_set_absent, remove_task_app, remove_task_absent by done.
  rewrite remove_task_cons. simpl. rewrite String.eqb_refl.
  apply app_nil_r.
Qed.

Lemma X2_register_then_remove_witness :
  let t := Sample.mk [("id", VStr "t9"); ("title", VStr "new")] in
  remove_task "t9" (register_task t Sample.reg).1.2 = Sample.reg.
Proof.
  intros t.
  exact (proj2 (X2_register_then_remove t "t9" Sample.reg eq_refl eq_refl)).
Defined.

(** X3.  [register_task] keeps the keys of the registry pairwise
    distinct.  An id that is registered already keeps its place in the
    iteration order and the number of tasks stays; a new id goes to the
    end. *)
Theorem X3_register_task_keys (t : pydict) (id : value) (reg : registry) :
  t !! "id" = Some id → Py.hashable id = true →
  let reg' := (register_task t reg).1.2 in
  (NoDup (map fst reg) → NoDup (map fst reg'))
  ∧ (is_Some (reg_get id reg) → map fst reg' = map fst reg)
  ∧ (reg_get id reg = None → map fst reg' = (map fst reg ++ [id])%list).
Proof.
  intros Hid Hhash. unfold register_task. rewrite Hid, Hhash. simpl.
  set (t' := Py.setdefault _ _ _).
  assert (Hnew : reg_get id reg = None →
                 map fst (reg_set id t' reg) = (map fst reg ++ [id])%list).
  { intros Hnone. by rewrite reg_set_absent, map_app. }
  split; [|split; [apply reg_set_present | apply Hnew]].
  intros Hnodup. destruct (reg_get id reg) eqn:Hget.
  - by rewrite reg_set_present.
  - rewrite Hnew by done. apply NoDup_app. split; [done|]. split.
    + intros k Hin Hk. apply list_elem_of_singleton in Hk. subst k.
      by apply (reg_get_None_notin id reg).
    + apply NoDup_singleton.
Qed.

Lemma X3_register_task_keys_witness :
  let t := Sample.mk [("id", VStr "t2")] in
  map fst (register_task t Sample.reg).1.2
  = [VStr "t1"; VStr "t2"; VStr "t3"; VStr "t4"; VStr "t5"].
Proof.
  intros t.
  destruct (X3_register_task_keys t (VStr "t2") Sample.reg eq_refl eq_refl)
    as (_ & Hkeep & _).
  rewrite Hkeep; [reflexivity|]. by eexists.
Defined.

Lemma setdefault_present (k : string) (v : value) (d : pydict) :
  is_Some (d !! k) → Py.setdefault k v d = d.
Proof. intros [x Hx]. unfold Py.setdefault. by rewrite Hx. Qed.

Lemma reg_set_twice (k : value) (t : pydict) (reg : registry) :
  Py.hashable k = true → reg_set k t (reg_set k t reg) = reg_set k t reg.
Proof.
  intros Hk. induction reg as [|[k' t'] rest IH]; simpl.
  - by rewrite key_eqb_refl.
  - destruct (Py.key_eqb k' k) eqn:E; simpl; rewrite E; [done|].
    by rewrite IH.
Qed.

(** X4.  [register_task] is idempotent: handing the dictionary it has
    filled in to it again, on the registry it has produced, changes
    neither. *)
Theorem X4_register_task_idempotent (t t' : pydict) (reg reg' : registry) :
  register_task t reg = ((t', reg'), None) →
  register_task t' reg' = ((t', reg'), None).
Proof.
  unfold register_task. destruct (t !! "id") as [id|] eqn:Hid; [|done].
  destruct (Py.hashable id) eqn:Hhash; [|done].
  set (t1 := Py.setdefault "priority" _ t).
  set (t2 := Py.setdefault "status" _ t1).
  set (t3 := Py.setdefault "tags" _ t2).
  set (t4 := Py.setdefault "metadata" _ t3).
  intros [= <- <-].
  assert (Hl : ∀ f, t4 !! f
                    = match t !! f with
                      | Some v => Some v
                      | None => default_field f
                      end).
  { intros f. unfold t4, t3, t2, t1. rewrite !setdefault_lookup.
    unfold default_field. destruct (t !! f); [done|].
    destruct (String.eqb f "priority"); [done|].
    destruct (String.eqb f "status"); [done|].
    by destruct (String.eqb f "tags"). }
  rewrite Hl, Hid, Hhash.
  assert (Hsome : ∀ f, is_Some (default_field f) → is_Some (t4 !! f)).
  { intros f Hf. rewrite Hl. by destruct (t !! f). }
  rewrite (setdefault_present "priority") by (apply Hsome; by eexists).
  rewrite (setdefault_present "status") by (apply Hsome; by eexists).
  rewrite (setdefault_present "tags") by (apply Hsome; by eexists).
  rewrite (setdefault_present "metadata") by (apply Hsome; by eexists).
  by rewrite reg_set_twice.
Qed.

Lemma X4_register_task_idempotent_witness :
  let t := Sample.mk [("id", VStr "t9")] in
  let r := register_task t Sample.reg in
  register_task r.1.1 r.1.2 = ((r.1.1, r.1.2), None).
Proof.
  intros t r. apply (X4_register_task_idempotent t _ Sample.reg).
  reflexivity.
Defined.

(** X5.  [register_task] keeps the registry within the schema: a task
    whose fields have the types of the schema is stored as one that has,
    among tasks that have. *)
Theorem X5_register_task_schema `{!PyLib} (t : pydict) (reg : registry) :
  schema_ok t = true → registry_ok reg = true →
  ∃ t' reg', register_task t reg = ((t', reg'), None)
    ∧ schema_ok t' = true ∧ registry_ok reg' = true.
Proof.
  intros Ht Hreg.
  assert (Hid : ∃ id, t !! "id" = Some (VStr id)).
  { pose proof Ht as Ht0. schema_fields Ht0.
    destruct (t !! "id") as [[| |id| | |]|]; try done. by exists id. }
  destruct Hid as [id Hid]. unfold register_task. rewrite Hid. simpl.
  set (t' := Py.setdefault "metadata" _ _).
  assert (Hl : ∀ f, t' !! f
                    = match t !! f with
                      | Some v => Some v
                      | None => default_field f
                      end).
  { intros f. unfold t'. rewrite !setdefault_lookup.
    unfold default_field. destruct (t !! f); [done|].
    destruct (String.eqb f "priority"); [done|].
    destruct (String.eqb f "status"); [done|].
    by destruct (String.eqb f "tags"). }
  assert (Ht' : schema_ok t' = true).
  { unfold schema_ok in *. rewrite !Hl.
    rewrite !andb_true_iff in *. destruct Ht as ((((H1 & H2) & H3) & H4) & H5).
    repeat split.
    - by destruct (t !! "id").
    - by destruct (t !! "priority").
    - by destruct (t !! "deadline").
    - by destruct (t !! "status").
    - by destruct (t !! "metadata"). }
  exists t', (reg_set (VStr id) t' reg). split; [done|]. split; [done|].
  clear -Hreg Ht'. induction reg as [|[k t0] rest IH]; simpl in *.
  - by rewrite Ht'.
  - apply andb_true_iff in Hreg as [H0 Hrest].
    destruct (Py.key_eqb k (VStr id)); simpl.
    + by rewrite Ht', Hrest.
    + by rewrite H0, IH.
Qed.

Lemma X5_register_task_schema_witness :
  let t := Sample.mk [("id", VStr "t9"); ("deadline", VStr "2024-01-01T13:00:00")] in
  @registry_ok Sample.pylib (register_task t Sample.reg).1.2 = true.
Proof.
  intros t.
  destruct (@X5_register_task_schema Sample.pylib t Sample.reg eq_refl eq_refl)
    as (t' & reg' & Hrun & _ & Hok).
  by rewrite Hrun.
Defined.

(** * Further properties of the housekeeping jobs *)

Lemma for_each_keys (body : pydict → pydict * option exn) (reg : registry) :
  map fst (for_each body reg).1 = map fst reg.
Proof.
  induction reg as [|[k t] rest IH]; simpl; [done|].
  destruct (body t) as [t' [e|]]; simpl; [done|].
  destruct (for_each body rest); simpl in *. by rewrite IH.
Qed.

(** However far a loop gets, a task is afterwards either as it was or as
    the body leaves it. *)
Lemma for_each_get (body : pydict → pydict * option exn) (k : value)
    (t : pydict) (reg : registry) :
  reg_get k reg = Some t →
  reg_get k (for_each body reg).1 = Some t
  ∨ reg_get k (for_each body reg).1 = Some (body t).1.
Proof.
  induction reg as [|[k' t'] rest IH]; simpl; [done|].
  destruct (Py.key_eqb k' k) eqn:Hk.
  - intros [= ->]. right.
    destruct (body t) as [t1 [e|]]; simpl; [by rewrite Hk|].
    destruct (for_each body rest); simpl. by rewrite Hk.
  - intros Hget. specialize (IH Hget).
    destruct (body t') as [t1 [e|]]; simpl.
    + left. by rewrite Hk.
    + destruct (for_each body rest); simpl in *. by rewrite Hk.
Qed.

(** A loop whose body keeps the schema and does not raise on tasks within
    it keeps the registry within the schema. *)
Lemma for_each_schema `{!PyLib} (body : pydict → pydict * option exn)
    (reg : registry) :
  (∀ t, schema_ok t = true →
        (body t).2 = None ∧ schema_ok (body t).1 = true) →
  registry_ok reg = true →
  for_each body reg = (map (λ kt, (kt.1, (body kt.2).1)) reg, None)
  ∧ registry_ok (map (λ kt, (kt.1, (body kt.2).1)) reg) = true.
Proof.
  intros Hbody Hok. split.
  - apply for_each_total. intros k t Hin.
    apply Hbody. by eapply registry_ok_elem.
  - unfold registry_ok in *. rewrite forallb_forall in *.
    intros [k t'] Hin. apply in_map_iff in Hin as ([k0 t] & [= <- <-] & Hin).
    apply Hbody. apply (Hok _ Hin).
Qed.

(** X6.  The three housekeeping jobs never add, remove or reorder tasks:
    the keys of the registry are the same after a job as before, also
    when the job raises. *)
Theorem X6_housekeeping_keeps_keys `{!PyLib, !AIEngine} (now : Z)
    (reg : registry) :
  map fst (_check_deadlines now reg).1 = map fst reg
  ∧ map fst (_recalculate_priorities now reg).1 = map fst reg
  ∧ map fst (_generate_ai_suggestions reg).1 = map fst reg.
Proof.
  split; [apply for_each_keys|]. split; [apply for_each_keys|].
  unfold _generate_ai_suggestions.
  destruct (suggest_next_actions (pending_tasks reg)) as [s|e].
  - pose proof (for_each_keys (attach_suggestion s) reg) as Hk.
    destruct (for_each (attach_suggestion s) reg) as [reg1 [e|]]; [|done].
    simpl in Hk. by rewrite for_each_keys.
  - apply for_each_keys.
Qed.

Section MoreHousekeeping.

Context `{!PyLib, !AIEngine}.

Lemma schema_ok_set_metadata (t : pydict) (m : pydict) :
  schema_ok t = true → schema_ok (<["metadata" := VDict m]> t) = true.
Proof.
  unfold schema_ok. rewrite lookup_insert_eq, !lookup_insert_ne by done.
  rewrite !andb_true_iff. tauto.
Qed.

Lemma schema_ok_set_status (t : pydict) (s : string) :
  schema_ok t = true → schema_ok (<["status" := VStr s]> t) = true.
Proof.
  unfold schema_ok. rewrite lookup_insert_eq, !lookup_insert_ne by done.
  rewrite !andb_true_iff. tauto.
Qed.

Lemma marked_overdue_schema_ok (now : Z) (t : pydict) :
  schema_ok t = true → schema_ok (marked_overdue now t) = true.
Proof.
  intros Hok. unfold marked_overdue.
  by apply schema_ok_set_metadata, schema_ok_set_status.
Qed.

(** The deadline sweep on a task within the schema, in one equation. *)
Lemma check_deadline_spec (now : Z) (t : pydict) :
  schema_ok t = true →
  check_deadline now t
  = (if sweep_marks now t then marked_overdue now t else t, None).
Proof.
  intros Hok. unfold sweep_marks.
  destruct (has_status t "done") eqn:Hdone; simpl.
  { pose proof (check_deadline_untouched now t (or_intror (or_introl Hdone))).
    pose proof (check_deadline_safe now t Hok).
    by destruct (check_deadline now t); simpl in *; subst. }
  destruct (has_status t "overdue") eqn:Hover; simpl.
  { pose proof (check_deadline_untouched now t (or_intror (or_intror Hover))).
    pose proof (check_deadline_safe now t Hok).
    by destruct (check_deadline now t); simpl in *; subst. }
  destruct (deadline_instant t) as [d|] eqn:Hd.
  - destruct (Z.ltb_spec d now) as [Hlt|Hge].
    + by eapply check_deadline_marks.
    + pose proof Hok as Hok'. schema_fields Hok'.
      unfold check_deadline, has_status, deadline_instant, Py.get in *.
      rewrite Hdone. rewrite orb_false_r.
      assert (Hcmp : (d <? now) = false) by by apply Z.ltb_ge.
      destruct (t !! "deadline") as [[| |s|dt| |]|]; try done.
      * destruct (negb _); [done|].
        destruct (fromisoformat s) as [dt|]; [|done]. simpl.
        destruct (dt_aware dt); [done|]. injection Hd as Hd; subst d.
        by rewrite Hcmp.
      * simpl. destruct (dt_aware dt); [done|]. injection Hd as Hd; subst d.
        by rewrite Hcmp.
  - pose proof Hok as Hok'. schema_fields Hok'.
    unfold check_deadline, has_status, deadline_instant, Py.get in *.
    rewrite Hdone. rewrite orb_false_r.
    destruct (t !! "deadline") as [[| |s|dt| |]|]; try done.
    + destruct (negb _); [done|].
      destruct (fromisoformat s) as [dt|]; [|done].
      apply negb_true_iff in Hdl. by rewrite Hdl in Hd.
    + apply negb_true_iff in Hdl. by rewrite Hdl in Hd.
Qed.

Lemma attach_suggestion_spec (suggestions : value) (t : pydict) :
  schema_ok t = true → has_status t "done" = false →
  attach_suggestion suggestions t = (suggestion_attached suggestions t, None).
Proof.
  intros Hok Hdone. pose proof (schema_ok_metadata _ Hok) as Hmeta.
  schema_fields Hok. unfold attach_suggestion, has_status in *. rewrite Hdone.
  assert (Hget : Py.get (Py.setdefault "metadata" (VDict ∅) t) "id"
                 = Py.get t "id").
  { unfold Py.get, Py.setdefault.
    destruct (t !! "metadata"); [done|]. by rewrite lookup_insert_ne. }
  rewrite Hget. unfold suggestion_attached, picked_suggestion, Py.get.
  destruct (t !! "id") as [[]|]; try done.
  destruct suggestions; simpl; by rewrite setitem2_after_setdefault.
Qed.

(** X7.  On a registry within the schema each of the three housekeeping
    jobs returns without raising, whatever the engine does, and leaves a
    registry within the schema: the jobs can run cycle after cycle. *)
Theorem X7_housekeeping_keeps_schema (now : Z) (reg : registry) :
  registry_ok reg = true →
  (∃ r, _check_deadlines now reg = (r, None) ∧ registry_ok r = true)
  ∧ (∃ r, _recalculate_priorities now reg = (r, None) ∧ registry_ok r = true)
  ∧ (∃ r, _generate_ai_suggestions reg = (r, None) ∧ registry_ok r = true).
Proof.
  intros Hok. split; [|split].
  - destruct (for_each_schema (check_deadline now) reg) as [Hrun Hres];
      [|done|by eexists].
    intros t Ht. rewrite check_deadline_spec by done. simpl. split; [done|].
    destruct (sweep_marks now t); [by apply marked_overdue_schema_ok|done].
  - eexists. split; [by apply recalculate_priorities_run|].
    pose proof (registry_ok_recalculated now reg Hok) as H1.
    by rewrite recalculate_priorities_run in H1.
  - unfold _generate_ai_suggestions.
    destruct (suggest_next_actions (pending_tasks reg)) as [s|e].
    + destruct (for_each_schema (attach_suggestion s) reg) as [Hrun Hres];
        [|done|].
      * intros t Ht. destruct (has_status t "done") eqn:Hdone.
        -- by rewrite attach_suggestion_done.
        -- rewrite attach_suggestion_spec by done. simpl. split; [done|].
           by apply schema_ok_set_metadata.
      * rewrite Hrun. by eexists.
    + destruct (for_each_schema (attach_error (exn_str e)) reg) as [Hrun Hres];
        [|done|by eexists].
      intros t Ht. rewrite attach_error_spec by by apply schema_ok_metadata.
      simpl. split; [done|]. by apply schema_ok_set_metadata.
Qed.

End MoreHousekeeping.

Lemma X7_housekeeping_keeps_schema_witness :
  (@_generate_ai_suggestions Sample.default_engine Sample.reg).2 = None
  ∧ @registry_ok Sample.pylib
      (@_generate_ai_suggestions Sample.default_engine Sample.reg).1 = true.
Proof.
  destruct (@X7_housekeeping_keeps_schema Sample.pylib Sample.default_engine
              Sample.noon Sample.reg eq_refl) as (_ & _ & r & Hrun & Hok).
  by rewrite Hrun.
Defined.

Section MoreRecalculation.

Context `{!PyLib}.

(** X8.  After a priority recalculation on a registry within the schema
    the priority of every task that is not done is an int between 1 and
    5, whatever int it was before. *)
Theorem X8_priority_within_bounds (now : Z) (reg : registry) :
  registry_ok reg = true →
  ∀ k t, reg_get k reg = Some t → has_status t "done" = false →
    ∃ t' p, reg_get k (_recalculate_priorities now reg).1 = Some t'
      ∧ t' !! "priority" = Some (VInt p) ∧ 1 ≤ p ≤ 5.
Proof.
  intros Hok k t Hget Hdone. do 2 eexists.
  split; [by apply recalculate_priorities_get|].
  split; [apply recalculated_priority|]. unfold clamp. lia.
Qed.

Lemma recalculate_priority_other_fields (now : Z) (t : pydict) (f : string) :
  f ≠ "priority" → (recalculate_priority now t).1 !! f = t !! f.
Proof.
  intros Hf. unfold recalculate_priority.
  destruct (Py.eq_str _ "done"); [done|].
  destruct (py_int _); [|done].
  destruct (urgency_bump _ _); [|done].
  simpl. by rewrite lookup_insert_ne.
Qed.

(** X9.  The priority recalculation writes the [priority] field and no
    other: every other field of every task is afterwards what it was, on
    any registry and also when the job raises. *)
Theorem X9_recalculation_writes_priority_only (now : Z) (reg : registry)
    (k : value) (t : pydict) :
  reg_get k reg = Some t →
  ∃ t', reg_get k (_recalculate_priorities now reg).1 = Some t'
    ∧ ∀ f, f ≠ "priority" → t' !! f = t !! f.
Proof.
  intros Hget.
  destruct (for_each_get (recalculate_priority now) k t reg Hget)
    as [Hres|Hres]; eexists; (split; [exact Hres|]); [done|].
  intros f Hf. by apply recalculate_priority_other_fields.
Qed.

Lemma clamp_step (b a : Z) (n : nat) :
  1 ≤ b ≤ 5 →
  clamp (clamp (b + Z.of_nat n * a) 1 5 + a) 1 5
  = clamp (b + Z.of_nat (S n) * a) 1 5.
Proof.
  intros Hb. rewrite Nat2Z.inj_succ.
  replace (Z.succ (Z.of_nat n) * a) with (Z.of_nat n * a + a) by lia.
  assert (Hn : 0 ≤ Z.of_nat n) by lia.
  set (m := Z.of_nat n * a).
  assert (Hm : (a < 0 ∧ m ≤ 0) ∨ (a = 0 ∧ m = 0) ∨ (0 < a ∧ 0 ≤ m)).
  { unfold m. destruct (Z.lt_trichotomy a 0) as [?|[?|?]]; [left|right;left|right;right]; nia. }
  unfold clamp. lia.
Qed.

Lemma iter_recalculated_facts (now : Z) (t : pydict) (n : nat) :
  1 ≤ base_priority t ≤ 5 →
  has_status (Nat.iter n (recalculated now) t) "done" = has_status t "done"
  ∧ deadline_adjustment now (Nat.iter n (recalculated now) t)
    = deadline_adjustment now t
  ∧ base_priority (Nat.iter n (recalculated now) t)
    = clamp (base_priority t + Z.of_nat n * deadline_adjustment now t) 1 5.
Proof.
  intros Hb. induction n as [|n (IHs & IHa & IHb)].
  - simpl. repeat split. unfold clamp. lia.
  - rewrite Nat.iter_succ. split; [by rewrite recalculated_status|].
    split; [by rewrite recalculated_adjustment|].
    unfold base_priority at 1. rewrite recalculated_priority.
    rewrite IHa, IHb. by apply clamp_step.
Qed.

Lemma cycles_recalculated (now : Z) (reg : registry) (k : value) (t : pydict)
    (n : nat) :
  registry_ok reg = true → reg_get k reg = Some t →
  has_status t "done" = false → 1 ≤ base_priority t ≤ 5 →
  registry_ok (cycles (_recalculate_priorities now) n reg) = true
  ∧ reg_get k (cycles (_recalculate_priorities now) n reg)
    = Some (Nat.iter n (recalculated now) t).
Proof.
  intros Hok Hget Hdone Hb. induction n as [|n [IHok IHget]]; [done|].
  unfold cycles in *. rewrite Nat.iter_succ. split.
  - by apply registry_ok_recalculated.
  - assert (Hd : has_status (Nat.iter n (recalculated now) t) "done" = false).
    { by destruct (iter_recalculated_facts now t n Hb) as (-> & _). }
    by apply recalculate_priorities_get.
Qed.

(** X12.  With the clock held at [now], [n + 1] priority recalculations
    in a row take a task that is not done from a priority [p] in 1..5 to
    [clamp (p + (n + 1) * adjustment) 1 5]: each cycle applies the
    adjustment of the deadline once more, until the bound is reached. *)
Theorem X12_recalculation_cycles (now : Z) (reg : registry) (n : nat) :
  registry_ok reg = true →
  ∀ k t, reg_get k reg = Some t → has_status t "done" = false →
    1 ≤ base_priority t ≤ 5 →
    ∃ t', reg_get k (cycles (_recalculate_priorities now) (S n) reg) = Some t'
      ∧ t' !! "priority"
        = Some (VInt (clamp (base_priority t
                             + Z.of_nat (S n) * deadline_adjustment now t) 1 5)).
Proof.
  intros Hok k t Hget Hdone Hb.
  destruct (cycles_recalculated now reg k t (S n) Hok Hget Hdone Hb)
    as [_ Hres].
  eexists. split; [exact Hres|]. rewrite Nat.iter_succ.
  rewrite recalculated_priority.
  destruct (iter_recalculated_facts now t n Hb) as (_ & -> & ->).
  by rewrite clamp_step.
Qed.

End MoreRecalculation.

Lemma X8_priority_within_bounds_witness :
  ∃ t' p,
    reg_get (VStr "t1")
      (@_recalculate_priorities Sample.pylib Sample.noon Sample.reg).1 = Some t'
    ∧ t' !! "priority" = Some (VInt p) ∧ 1 ≤ p ≤ 5.
Proof.
  exact (@X8_priority_within_bounds Sample.pylib Sample.noon Sample.reg
           eq_refl (VStr "t1") Sample.t1 eq_refl eq_refl).
Defined.

Lemma X9_recalculation_writes_priority_only_witness :
  ∃ t',
    reg_get (VStr "t2")
      (@_recalculate_priorities Sample.pylib Sample.noon Sample.reg).1 = Some t'
    ∧ t' !! "deadline" = Sample.t2 !! "deadline".
Proof.
  destruct (@X9_recalculation_writes_priority_only Sample.pylib Sample.noon
              Sample.reg (VStr "t2") Sample.t2 eq_refl) as (t' & Hget & Hf).
  exists t'. split; [exact Hget|]. by apply Hf.
Defined.

(** Three cycles at noon take [t2], of priority 3 and due in 30 minutes,
    to priority 1. *)
Lemma X12_recalculation_cycles_witness :
  ∃ t',
    reg_get (VStr "t2")
      (cycles (@_recalculate_priorities Sample.pylib Sample.noon) 3 Sample.reg)
    = Some t'
    ∧ t' !! "priority" = Some (VInt 1).
Proof.
  destruct (@X12_recalculation_cycles Sample.pylib Sample.noon Sample.reg 2
              eq_refl (VStr "t2") Sample.t2 eq_refl eq_refl)
    as (t' & Hget & Hp).
  - vm_compute. split; discriminate.
  - exists t'. split; [exact Hget|]. rewrite Hp. reflexivity.
Defined.

Section MoreDeadlineSweep.

Context `{!PyLib}.

(** What the marking branch of the sweep leaves, whether or not the write
    into the metadata succeeds. *)
Lemma marking_branch_fields (t : pydict) (v : value) :
  let t' := (Py.setitem2
               (Py.setdefault "metadata" (VDict ∅)
                  (<["status" := VStr "overdue"]> t))
               "metadata" "overdue_since" v).1 in
  (∀ f, f ≠ "status" → f ≠ "metadata" → t' !! f = t !! f)
  ∧ t' !! "status" = Some (VStr "overdue")
  ∧ (∀ m, m ≠ "overdue_since" → metadata_entry t' m = metadata_entry t m).
Proof.
  set (t0 := <["status" := VStr "overdue"]> t).
  assert (H0 : t0 !! "metadata" = t !! "metadata").
  { unfold t0. by rewrite lookup_insert_ne. }
  assert (Hf0 : ∀ f, f ≠ "status" → t0 !! f = t !! f).
  { intros f Hf. unfold t0. by rewrite lookup_insert_ne. }
  assert (Hs0 : t0 !! "status" = Some (VStr "overdue")).
  { unfold t0. apply lookup_insert_eq. }
  unfold metadata_entry.
  destruct (t !! "metadata") as [mv|] eqn:Hm.
  - rewrite setdefault_present by (rewrite H0; by eexists).
    unfold Py.setitem2. rewrite H0.
    destruct mv as [| | | | |m0]; simpl; rewrite ?H0;
      try (split; [intros f H1 H2; by apply Hf0 | by split]).
    split; [|split].
    + intros f H1 H2. rewrite lookup_insert_ne by done. by apply Hf0.
    + by rewrite lookup_insert_ne.
    + intros m Hne. rewrite lookup_insert_eq. by rewrite lookup_insert_ne.
  - unfold Py.setdefault, Py.setitem2. rewrite H0, lookup_insert_eq. simpl.
    split; [|split].
    + intros f H1 H2. rewrite !lookup_insert_ne by done. by apply Hf0.
    + by rewrite !lookup_insert_ne.
    + intros m Hne. rewrite lookup_insert_eq. by rewrite lookup_insert_ne.
Qed.

Lemma check_deadline_shape (now : Z) (t : pydict) :
  (check_deadline now t).1 = t
  ∨ (check_deadline now t).1
    = (Py.setitem2
         (Py.setdefault "metadata" (VDict ∅) (<["status" := VStr "overdue"]> t))
         "metadata" "overdue_since" (VStr (isoformat now))).1.
Proof.
  unfold check_deadline. destruct (negb _ || _); [by left|].
  destruct (match Py.get t "deadline" with
            | VStr s => option_map VTime (fromisoformat s)
            | _ => Some (Py.get t "deadline")
            end) as [d|]; [|by left].
  destruct (lt_now d now) as [[]|]; [|by left..].
  destruct (Py.in_str_set _ _ _) as [[]|]; [by left|by right|by left].
Qed.

(** X10.  The deadline sweep writes nothing but the status, which it
    leaves or sets to overdue, and the metadata entry [overdue_since]:
    every other field and every other metadata entry of every task is
    afterwards what it was, on any registry and also when the sweep
    raises. *)
Theorem X10_sweep_writes_status_and_stamp_only (now : Z) (reg : registry)
    (k : value) (t : pydict) :
  reg_get k reg = Some t →
  ∃ t', reg_get k (_check_deadlines now reg).1 = Some t'
    ∧ (∀ f, f ≠ "status" → f ≠ "metadata" → t' !! f = t !! f)
    ∧ (t' !! "status" = t !! "status" ∨ t' !! "status" = Some (VStr "overdue"))
    ∧ (∀ m, m ≠ "overdue_since" → metadata_entry t' m = metadata_entry t m).
Proof.
  intros Hget.
  destruct (for_each_get (check_deadline now) k t reg Hget) as [Hres|Hres].
  { exists t. split; [exact Hres|]. auto. }
  exists (check_deadline now t).1. split; [exact Hres|].
  destruct (check_deadline_shape now t) as [-> | ->]; [auto|].
  destruct (marking_branch_fields t (VStr (isoformat now))) as (Hf & Hs & Hm).
  auto.
Qed.

Lemma sweep_marks_marked (now now' : Z) (t : pydict) :
  sweep_marks now' (marked_overdue now t) = false.
Proof.
  unfold sweep_marks, has_status, Py.get. by rewrite marked_overdue_status.
Qed.

Lemma check_deadlines_run (now : Z) (reg : registry) :
  registry_ok reg = true →
  let swept :=
    map (λ kt, (kt.1, if sweep_marks now kt.2
                      then marked_overdue now kt.2 else kt.2)) reg in
  _check_deadlines now reg = (swept, None) ∧ registry_ok swept = true.
Proof.
  intros Hok swept.
  destruct (for_each_schema (check_deadline now) reg) as [Hrun Hres]; [|done|].
  { intros t Ht. rewrite check_deadline_spec by done. simpl. split; [done|].
    destruct (sweep_marks now t); [by apply marked_overdue_schema_ok|done]. }
  assert (Heq : map (λ kt, (kt.1, (check_deadline now kt.2).1)) reg = swept).
  { apply map_ext_in. intros [k t] Hin. simpl.
    rewrite check_deadline_spec; [done|].
    apply (registry_ok_elem reg k t Hok). by apply list_elem_of_In. }
  unfold _check_deadlines. by rewrite Hrun, <- Heq.
Qed.

(** X11.  [overdue_since] records the sweep that first found the task
    overdue: on a registry within the schema, a task marked by the sweep
    at [now] still carries [now] after a further sweep at any other
    instant.  A sweep repeated at the same instant changes nothing. *)
Theorem X11_overdue_since_first_detection (now now' : Z) (reg : registry) :
  registry_ok reg = true →
  (∀ k t, reg_get k reg = Some t → sweep_marks now t = true →
     ∃ t', reg_get k (_check_deadlines now' (_check_deadlines now reg).1).1
           = Some t'
       ∧ t' !! "status" = Some (VStr "overdue")
       ∧ metadata_entry t' "overdue_since" = Some (VStr (isoformat now)))
  ∧ _check_deadlines now (_check_deadlines now reg).1
    = _check_deadlines now reg.
Proof.
  intros Hok.
  destruct (check_deadlines_run now reg Hok) as [Hrun Hok1]. rewrite Hrun.
  cbn [fst]. split.
  - intros k t Hget Hmark. exists (marked_overdue now t).
    split; [|split; [apply marked_overdue_status|apply marked_overdue_since]].
    apply for_each_fixed.
    + rewrite (reg_get_map (λ t, if sweep_marks now t
                                 then marked_overdue now t else t)), Hget.
      simpl. by rewrite Hmark.
    + apply check_deadline_untouched. right. right.
      unfold has_status, Py.get. by rewrite marked_overdue_status.
  - destruct (check_deadlines_run now _ Hok1) as [Hrun2 _]. rewrite Hrun2.
    f_equal. rewrite map_map. apply map_ext. intros [k t]. simpl.
    destruct (sweep_marks now t) eqn:Hm; [|by rewrite Hm].
    by rewrite sweep_marks_marked.
Qed.

End MoreDeadlineSweep.

Lemma X10_sweep_writes_status_and_stamp_only_witness :
  ∃ t', reg_get (VStr "t1")
          (@_check_deadlines Sample.pylib Sample.noon Sample.reg).1 = Some t'
    ∧ t' !! "priority" = Some (VInt 3).
Proof.
  destruct (@X10_sweep_writes_status_and_stamp_only Sample.pylib Sample.noon
              Sample.reg (VStr "t1") Sample.t1 eq_refl)
    as (t' & Hget & Hf & _).
  exists t'. split; [exact Hget|]. by rewrite Hf.
Defined.

(** [t1] is marked at noon; a sweep an hour later leaves the stamp of
    noon. *)
Lemma X11_overdue_since_first_detection_witness :
  ∃ t', reg_get (VStr "t1")
          (@_check_deadlines Sample.pylib (Sample.noon + hour_us)
             (@_check_deadlines Sample.pylib Sample.noon Sample.reg).1).1
        = Some t'
    ∧ metadata_entry t' "overdue_since" = Some (VStr "2024-01-01T12:00:00").
Proof.
  destruct (@X11_overdue_since_first_detection Sample.pylib Sample.noon
              (Sample.noon + hour_us) Sample.reg eq_refl) as [Hfirst _].
  destruct (Hfirst (VStr "t1") Sample.t1 eq_refl eq_refl)
    as (t' & Hget & _ & Hstamp).
  exists t'. split; [exact Hget|exact Hstamp].
Defined.

Section MoreRefresh.

Context `{!PyLib, !AIEngine}.

(** X13.  When the capability answers, on a registry within the schema,
    the refresh returns normally and every task that is not done gets
    under [ai_suggestions] the entry of the answer for its id when the
    answer is a dict ([None] when the dict has none) and the whole answer
    otherwise.  Nothing else is written: an [ai_suggestions_error] left by
    an earlier failure stays. *)
Theorem X13_refresh_success (reg : registry) (suggestions : value) :
  suggest_next_actions (pending_tasks reg) = Ok suggestions →
  registry_ok reg = true →
  ∃ reg', _generate_ai_suggestions reg = (reg', None) ∧
    ∀ k t, reg_get k reg = Some t → has_status t "done" = false →
      ∃ t', reg_get k reg' = Some t'
        ∧ metadata_entry t' "ai_suggestions"
          = Some (picked_suggestion suggestions t)
        ∧ (∀ m, m ≠ "ai_suggestions" →
                metadata_entry t' m = metadata_entry t m)
        ∧ (∀ f, f ≠ "metadata" → t' !! f = t !! f).
Proof.
  intros Hans Hok. unfold _generate_ai_suggestions. rewrite Hans.
  rewrite for_each_total.
  2:{ intros k t Hin. apply attach_suggestion_safe. by eapply registry_ok_elem. }
  eexists. split; [done|]. intros k t Hget Hdone.
  pose proof (registry_ok_get _ _ _ Hok Hget) as Ht.
  exists (suggestion_attached suggestions t).
  rewrite (reg_get_map (λ t, (attach_suggestion suggestions t).1)), Hget.
  simpl. rewrite attach_suggestion_spec by done. split; [done|].
  unfold metadata_entry, suggestion_attached. rewrite lookup_insert_eq.
  split; [apply lookup_insert_eq|]. split.
  - intros m Hm. rewrite lookup_insert_ne by done.
    apply schema_ok_metadata in Ht. unfold metadata_ok in Ht.
    by destruct (t !! "metadata") as [[]|].
  - intros f Hf. by rewrite lookup_insert_ne.
Qed.

End MoreRefresh.

(** The engine that answers "review" for every task: [t1] gets it. *)
Lemma X13_refresh_success_witness :
  ∃ reg' t',
    @_generate_ai_suggestions Sample.canned_engine Sample.reg = (reg', None)
    ∧ reg_get (VStr "t1") reg' = Some t'
    ∧ metadata_entry t' "ai_suggestions" = Some (VStr "review").
Proof.
  destruct (@X13_refresh_success Sample.pylib Sample.canned_engine Sample.reg
              (VStr "review") eq_refl eq_refl) as (reg' & Hrun & Hall).
  destruct (Hall (VStr "t1") Sample.t1 eq_refl eq_refl) as (t' & Hget & Hs & _).
  exists reg', t'. split; [exact Hrun|]. split; [exact Hget|exact Hs].
Defined.

(** * Lifecycle and proposal scheduling *)

Section LifecycleProperties.

Context `{!PyLib, !AIEngine, !APScheduler, !APSchedulerRuntime}.

Lemma suggest_schedule_answer (task_id : string) (reg : registry)
    (t : pydict) (proposal : value) :
  reg_get (VStr task_id) reg = Some t → t ≠ ∅ →
  propose_schedule t = Ok proposal →
  suggest_schedule_for_task task_id reg = Ok proposal.
Proof.
  intros Hget Ht Hprop. unfold suggest_schedule_for_task.
  by rewrite Hget, (truthy_nonempty t Ht), Hprop.
Qed.

(** X14.  [schedule_task_by_proposal] returns [None] and leaves the
    scheduler as it was when there is no task under the id, when the
    proposal capability raises, and when the proposal is falsy (an empty
    dict, [None]). *)
Theorem X14_no_proposal_no_job (task_id : string) (now : Z) (reg : registry)
    (s : Sched) :
  (reg_get (VStr task_id) reg = None →
   schedule_task_by_proposal task_id now reg s = (s, Ok VNone))
  ∧ (∀ t e, reg_get (VStr task_id) reg = Some t →
            propose_schedule t = Raise e →
            schedule_task_by_proposal task_id now reg s = (s, Ok VNone))
  ∧ (∀ t proposal, reg_get (VStr task_id) reg = Some t →
                   propose_schedule t = Ok proposal →
                   Py.truthy proposal = false →
                   schedule_task_by_proposal task_id now reg s = (s, Ok VNone)).
Proof.
  unfold schedule_task_by_proposal, suggest_schedule_for_task.
  split; [|split].
  - by intros ->.
  - intros t e -> ->. by destruct (negb _).
  - intros t proposal -> -> Hfalsy. destruct (negb (Py.truthy (VDict t))).
    + done.
    + by rewrite Hfalsy.
Qed.

(** X15.  For a task that is registered and a proposal that is a dict
    (not empty), [schedule_task_by_proposal] adds the one-off job
    [task:<id>:once] running [noop] with the task id, and returns the job
    id.  The run date is the proposal's [run_at] when that is a datetime
    or a string that parses; when [run_at] is missing, [None] or a string
    that does not parse, it is ten minutes after [now]. *)
Theorem X15_proposal_run_date (task_id : string) (now : Z) (reg : registry)
    (s : Sched) (t d : pydict) :
  reg_get (VStr task_id) reg = Some t → t ≠ ∅ →
  propose_schedule t = Ok (VDict d) → d ≠ ∅ →
  let fallback := VTime (mkdt (now + ten_minutes_us) false) in
  (Py.get d "run_at" = VNone →
   schedule_task_by_proposal task_id now reg s = proposal_job task_id fallback s)
  ∧ (∀ r, d !! "run_at" = Some (VStr r) → fromisoformat r = None →
          schedule_task_by_proposal task_id now reg s
          = proposal_job task_id fallback s)
  ∧ (∀ r dt, d !! "run_at" = Some (VStr r) → fromisoformat r = Some dt →
             schedule_task_by_proposal task_id now reg s
             = proposal_job task_id (VTime dt) s)
  ∧ (∀ dt, d !! "run_at" = Some (VTime dt) →
           schedule_task_by_proposal task_id now reg s
           = proposal_job task_id (VTime dt) s).
Proof.
  intros Hget Ht Hprop Hd fallback.
  unfold schedule_task_by_proposal, proposal_job.
  rewrite (suggest_schedule_answer task_id reg t (VDict d)) by done.
  cbv beta iota. rewrite (truthy_nonempty d Hd). cbv beta iota delta [negb].
  split; [|split; [|split]].
  - by intros ->.
  - intros r Hr Hparse. unfold Py.get. by rewrite Hr, Hparse.
  - intros r dt Hr Hparse. unfold Py.get. by rewrite Hr, Hparse.
  - intros dt Hr. unfold Py.get. by rewrite Hr.
Qed.

(** X16.  A proposal that is truthy but not a dict, such as a string
    that is not empty, makes [schedule_task_by_proposal] raise
    [AttributeError]: this failure is not turned into [None].  The
    scheduler is left as it was. *)
Theorem X16_proposal_not_a_dict_raises (task_id : string) (now : Z)
    (reg : registry) (s : Sched) (t : pydict) (proposal : value) :
  reg_get (VStr task_id) reg = Some t → t ≠ ∅ →
  propose_schedule t = Ok proposal → Py.truthy proposal = true →
  (∀ d, proposal ≠ VDict d) →
  ∃ msg, schedule_task_by_proposal task_id now reg s
         = (s, Raise (Exn (OtherError "AttributeError") msg)).
Proof.
  intros Hget Ht Hprop Htruthy Hnodict.
  unfold schedule_task_by_proposal.
  rewrite (suggest_schedule_answer task_id reg t proposal) by done.
  cbv beta iota. rewrite Htruthy. cbv beta iota delta [negb].
  destruct proposal; try by eexists. by destruct (Hnodict d).
Qed.

(** X17.  [noop] does nothing, and does not raise, when the task it was
    scheduled for is no longer registered.  When the task is there, with
    metadata that is a dict or missing, [noop] stamps [executed_at] with
    the time of the run into its metadata and touches neither its other
    fields nor any other task. *)
Theorem X17_noop (task_id : string) (now : Z) (reg : registry) :
  (reg_get (VStr task_id) reg = None → noop task_id now reg = (reg, None))
  ∧ (∀ t, reg_get (VStr task_id) reg = Some t → t ≠ ∅ →
          metadata_ok t = true →
          ∃ t' reg', noop task_id now reg = (reg', None)
            ∧ reg_get (VStr task_id) reg' = Some t'
            ∧ metadata_entry t' "executed_at" = Some (VStr (isoformat now))
            ∧ (∀ f, f ≠ "metadata" → t' !! f = t !! f)
            ∧ (∀ m, m ≠ "executed_at" →
                    metadata_entry t' m = metadata_entry t m)
            ∧ (∀ k, Py.key_eqb (VStr task_id) k = false →
                    reg_get k reg' = reg_get k reg)
            ∧ map fst reg' = map fst reg).
Proof.
  unfold noop. split; [by intros ->|].
  intros t Hget Ht Hmeta. rewrite Hget. cbv beta iota.
  rewrite (truthy_nonempty t Ht). cbv beta iota zeta delta [negb].
  rewrite setitem2_after_setdefault by done.
  do 2 eexists. split; [done|].
  split; [by apply reg_get_set_same|].
  unfold metadata_entry. rewrite lookup_insert_eq.
  split; [apply lookup_insert_eq|].
  split; [intros f Hf; by rewrite lookup_insert_ne|].
  split.
  { intros m Hm. rewrite lookup_insert_ne by done.
    unfold metadata_ok in Hmeta. by destruct (t !! "metadata") as [[]|]. }
  split; [intros k Hk; by apply reg_get_set_other|].
  apply reg_set_present. by eexists.
Qed.

(** X18.  [start] sets [_started] only once the scheduler is running and
    the three housekeeping jobs are added: a [start] that returns
    normally makes a further [start] do nothing, and leaves the tasks
    alone.  A [start] that raises leaves [_started] unset, so that
    [shutdown] afterwards does nothing and does not reach the
    scheduler. *)
Theorem X18_start_and_shutdown (self self' : TaskScheduler) (wait : bool) :
  (start self = (self', None) →
   _started self' = true ∧ tasks self' = tasks self
   ∧ start self' = (self', None))
  ∧ (∀ e, start self = (self', Some e) →
          _started self' = false ∧ tasks self' = tasks self
          ∧ shutdown wait self' = (self', None)).
Proof.
  unfold start, shutdown. split.
  - destruct (_started self) eqn:Hs.
    + intros [= <-]. by rewrite Hs.
    + destruct (scheduler_start _) as [s1 [e1|]]; [done|].
      destruct (_schedule_housekeeping_jobs s1) as [s2 [e2|]]; [done|].
      by intros [= <-].
  - intros e. destruct (_started self) eqn:Hs; [done|].
    destruct (scheduler_start _) as [s1 [e1|]]; [by intros [= <- _]|].
    destruct (_schedule_housekeeping_jobs s1) as [s2 [e2|]]; [|done].
    by intros [= <- _].
Qed.

End LifecycleProperties.

Lemma X14_no_proposal_no_job_witness :
  @schedule_task_by_proposal Sample.pylib Sample.default_engine
    Sample.list_scheduler SampleRuntime.runtime "t1" Sample.noon Sample.reg
    [Some "old"]
  = ([Some "old"], Ok VNone)
  ∧ @schedule_task_by_proposal Sample.pylib Sample.canned_engine
      Sample.list_scheduler SampleRuntime.runtime "missing" Sample.noon
      Sample.reg [Some "old"]
    = ([Some "old"], Ok VNone).
Proof.
  destruct (@X14_no_proposal_no_job Sample.pylib Sample.default_engine
              Sample.list_scheduler SampleRuntime.runtime "t1" Sample.noon
              Sample.reg [Some "old"]) as (_ & Hfail & _).
  destruct (@X14_no_proposal_no_job Sample.pylib Sample.canned_engine
              Sample.list_scheduler SampleRuntime.runtime "missing" Sample.noon
              Sample.reg [Some "old"]) as (Hmiss & _).
  split; [exact (Hfail Sample.t1 _ eq_refl eq_refl)|exact (Hmiss eq_refl)].
Defined.

Lemma sample_nonempty (fields : list (string * value)) (k : string) (v : value) :
  Sample.mk fields !! k = Some v → Sample.mk fields ≠ ∅.
Proof. intros Hk Hempty. by rewrite Hempty in Hk. Qed.

(** The proposal of [vague_engine] says "soon": the job for [t1] is added
    under [task:t1:once]. *)
Lemma X15_proposal_run_date_witness :
  @schedule_task_by_proposal Sample.pylib SampleRuntime.vague_engine
    Sample.list_scheduler SampleRuntime.runtime "t1" Sample.noon Sample.reg []
  = ([Some "task:t1:once"], Ok (VStr "task:t1:once")).
Proof.
  destruct (@X15_proposal_run_date Sample.pylib SampleRuntime.vague_engine
              Sample.list_scheduler SampleRuntime.runtime "t1" Sample.noon
              Sample.reg [] Sample.t1 {[ "run_at" := VStr "soon" ]} eq_refl)
    as (_ & Hbad & _).
  - by apply (sample_nonempty _ "id" (VStr "t1")).
  - reflexivity.
  - intros Hempty. apply (f_equal (λ m, m !! "run_at")) in Hempty.
    vm_compute in Hempty. discriminate.
  - rewrite (Hbad "soon" eq_refl eq_refl). reflexivity.
Defined.

Lemma X16_proposal_not_a_dict_raises_witness :
  ∃ msg,
    @schedule_task_by_proposal Sample.pylib SampleRuntime.chatty_engine
      Sample.list_scheduler SampleRuntime.runtime "t1" Sample.noon Sample.reg []
    = ([], Raise (Exn (OtherError "AttributeError") msg)).
Proof.
  apply (@X16_proposal_not_a_dict_raises Sample.pylib
           SampleRuntime.chatty_engine Sample.list_scheduler
           SampleRuntime.runtime "t1" Sample.noon Sample.reg [] Sample.t1
           (VStr "tomorrow morning")).
  - reflexivity.
  - by apply (sample_nonempty _ "id" (VStr "t1")).
  - reflexivity.
  - reflexivity.
  - intros d. discriminate.
Defined.

Lemma X17_noop_witness :
  @noop Sample.pylib "gone" Sample.noon Sample.reg = (Sample.reg, None)
  ∧ ∃ t' reg',
      @noop Sample.pylib "t5" Sample.noon Sample.reg = (reg', None)
      ∧ reg_get (VStr "t5") reg' = Some t'
      ∧ metadata_entry t' "executed_at" = Some (VStr "2024-01-01T12:00:00").
Proof.
  destruct (@X17_noop Sample.pylib "gone" Sample.noon Sample.reg) as [Hgone _].
  destruct (@X17_noop Sample.pylib "t5" Sample.noon Sample.reg) as [_ Hthere].
  split; [exact (Hgone eq_refl)|].
  destruct (Hthere Sample.t5 eq_refl) as (t' & reg' & Hrun & Hget & Hstamp & _).
  - by apply (sample_nonempty _ "id" (VStr "t5")).
  - reflexivity.
  - exists t', reg'. split; [exact Hrun|]. split; [exact Hget|exact Hstamp].
Defined.

(** With the runtime that refuses the hourly interval, [start] raises
    after two jobs were added, and [shutdown] then does nothing. *)
Lemma X18_start_and_shutdown_witness :
  let started := (@start Sample.list_scheduler SampleRuntime.runtime
                    SampleRuntime.fresh).1 in
  let failed := (@start Sample.list_scheduler SampleRuntime.refusing
                   SampleRuntime.fresh).1 in
  @start Sample.list_scheduler SampleRuntime.runtime started = (started, None)
  ∧ scheduler failed
    = [Some "housekeeping:deadlines"; Some "housekeeping:priorities"]
  ∧ @shutdown Sample.list_scheduler SampleRuntime.refusing true failed
    = (failed, None).
Proof.
  intros started failed.
  destruct (@X18_start_and_shutdown Sample.list_scheduler SampleRuntime.runtime
              SampleRuntime.fresh started true) as [Hok _].
  destruct (@X18_start_and_shutdown Sample.list_scheduler SampleRuntime.refusing
              SampleRuntime.fresh failed true) as [_ Hfail].
  destruct (Hok eq_refl) as (_ & _ & Hagain).
  destruct (Hfail (Exn ValueError "refused") eq_refl) as (_ & _ & Hdown).
  split; [exact Hagain|]. split; [reflexivity|exact Hdown].
Defined.

(** * The helpers of the AI engine *)

(** X19.  Whenever [_calculate_priority_score] returns, the score is a
    multiple of 10 between 30 and 100, so that the final clamp to 0..100
    changes nothing, and the deadline has no part in it: any other
    deadline gives the same score. *)
Theorem X19_priority_score (sentiment urgency : pydict)
    (deadline deadline' : value) (n : Z) :
  _calculate_priority_score sentiment urgency deadline = Ok n →
  30 ≤ n ≤ 100 ∧ n mod 10 = 0
  ∧ _calculate_priority_score sentiment urgency deadline' = Ok n.
Proof.
  unfold _calculate_priority_score.
  destruct (getitem urgency "labels") as [labels|]; [|done].
  destruct (first_item labels) as [top|]; [|done].
  destruct (urgency_score top) as [score|] eqn:Hscore; [|done].
  destruct (getitem sentiment "label") as [label|]; [|done].
  assert (Hcases : score = 90 ∨ score = 70 ∨ score = 50 ∨ score = 30).
  { unfold urgency_score, urgency_scores in Hscore.
    destruct top; try (injection Hscore as <-; auto); try done.
    repeat case_match; simplify_eq; auto. }
  destruct (Py.truthy deadline), (Py.truthy deadline');
    destruct (Py.eq_str label "NEGATIVE"); intros [= <-];
    destruct Hcases as [-> | [-> | [-> | ->]]]; done.
Qed.

Lemma X19_priority_score_witness :
  let urgency := Sample.mk [("labels", VList [VStr "urgent"; VStr "low priority"])] in
  let sentiment := Sample.mk [("label", VStr "NEGATIVE")] in
  _calculate_priority_score sentiment urgency (VStr "2024-01-01T11:00:00")
  = Ok 100.
Proof.
  intros urgency sentiment.
  exact (proj2 (proj2 (X19_priority_score sentiment urgency VNone
                         (VStr "2024-01-01T11:00:00") 100 eq_refl))).
Defined.

(** X20.  The deadline recommended for the score of a task depends on
    the top urgency label and on whether the sentiment is NEGATIVE:
    "within 24 hours" exactly for "urgent" and for a NEGATIVE "high
    priority", "within 2 weeks" exactly for a "low priority" that is not
    NEGATIVE. *)
Theorem X20_recommended_deadline (sentiment urgency : pydict)
    (deadline : value) (top : string) (rest : list value) (label : value) :
  urgency !! "labels" = Some (VList (VStr top :: rest)) →
  sentiment !! "label" = Some label →
  ∃ n, _calculate_priority_score sentiment urgency deadline = Ok n
    ∧ (_recommend_deadline n = "within 24 hours" ↔
       top = "urgent"
       ∨ (top = "high priority" ∧ Py.eq_str label "NEGATIVE" = true))
    ∧ (_recommend_deadline n = "within 2 weeks" ↔
       top = "low priority" ∧ Py.eq_str label "NEGATIVE" = false).
Proof.
  intros Hl Hs. unfold _calculate_priority_score, getitem. rewrite Hl, Hs.
  simpl. unfold urgency_scores.
  assert (Hsame : ∀ z : Z, (if Py.truthy deadline then z else z) = z).
  { intros z. by destruct (Py.truthy deadline). }
  rewrite Hsame.
  destruct (String.eqb_spec top "urgent") as [->|H1];
    [|destruct (String.eqb_spec top "high priority") as [->|H2];
      [|destruct (String.eqb_spec top "medium priority") as [->|H3];
        [|destruct (String.eqb_spec top "low priority") as [->|H4]]]];
    destruct (Py.eq_str label "NEGATIVE"); eexists; (split; [reflexivity|]);
    cbn; (split; split); intros Hc;
    try discriminate; try (by auto); try (by intuition discriminate);
    try (by intuition congruence).
Qed.

Lemma X20_recommended_deadline_witness :
  let urgency := Sample.mk [("labels", VList [VStr "high priority"])] in
  let sentiment := Sample.mk [("label", VStr "NEGATIVE")] in
  ∃ n, _calculate_priority_score sentiment urgency VNone = Ok n
       ∧ _recommend_deadline n = "within 24 hours".
Proof.
  intros urgency sentiment.
  destruct (X20_recommended_deadline sentiment urgency VNone "high priority" []
              (VStr "NEGATIVE") eq_refl eq_refl) as (n & Hn & Hday & _).
  exists n. split; [exact Hn|]. apply Hday. right. split; reflexivity.
Defined.

(** ** Stripping and splitting *)

Lemma lstrip_by_head (p : ascii → bool) (s : string) :
  match lstrip_by p s with
  | String c _ => p c = false
  | EmptyString => True
  end.
Proof.
  induction s as [|c s IH]; simpl; [done|].
  by destruct (p c) eqn:E.
Qed.

Lemma rstrip_by_tail (p : ascii → bool) (c : ascii) (s : string) :
  rstrip_by p (String c s) = String c s → rstrip_by p s = s.
Proof.
  simpl. destruct (rstrip_by p s) eqn:E.
  - destruct (p c); intros Heq; [discriminate|]. by injection Heq as <-.
  - by intros [= <-].
Qed.

Lemma rstrip_by_idem (p : ascii → bool) (s : string) :
  rstrip_by p (rstrip_by p s) = rstrip_by p s.
Proof.
  induction s as [|c s IH]; simpl; [done|].
  destruct (rstrip_by p s) as [|d r] eqn:E.
  - destruct (p c) eqn:Hc; simpl; [done|]. by rewrite Hc.
  - change (rstrip_by p (String c (String d r))) with
      (match rstrip_by p (String d r) with
       | EmptyString => if p c then EmptyString else String c EmptyString
       | r0 => String c r0
       end).
    by rewrite IH.
Qed.

Lemma rstrip_by_lstrip (p q : ascii → bool) (s : string) :
  rstrip_by p s = s → rstrip_by p (lstrip_by q s) = lstrip_by q s.
Proof.
  induction s as [|c s IH]; intros Heq; [done|].
  simpl lstrip_by. destruct (q c); [|done].
  apply IH. by eapply rstrip_by_tail.
Qed.

Lemma lstrip_by_forallb (q p : ascii → bool) (s : string) :
  forallb q (list_ascii_of_string s) = true →
  forallb q (list_ascii_of_string (lstrip_by p s)) = true.
Proof.
  induction s as [|c s IH]; simpl; [done|].
  intros [Hc Hs]%andb_true_iff. destruct (p c); [by apply IH|].
  simpl. by rewrite Hc, Hs.
Qed.

Lemma rstrip_by_forallb (q p : ascii → bool) (s : string) :
  forallb q (list_ascii_of_string s) = true →
  forallb q (list_ascii_of_string (rstrip_by p s)) = true.
Proof.
  induction s as [|c s IH]; simpl; [done|].
  intros [Hc Hs]%andb_true_iff. specialize (IH Hs).
  destruct (rstrip_by p s) as [|d r].
  - destruct (p c); simpl; [done|]. by rewrite Hc.
  - simpl in *. by rewrite Hc, IH.
Qed.

Lemma forallb_rev_true {A} (f : A → bool) (l : list A) :
  forallb f l = true → forallb f (rev l) = true.
Proof.
  rewrite !forallb_forall. intros Hall x Hin. apply Hall. by apply in_rev.
Qed.

(** The pieces [split_on] returns have no separator in them. *)
Lemma split_on_pieces (sep : ascii) (cur : list ascii) (s : string) :
  forallb (λ c, negb (Ascii.eqb c sep)) cur = true →
  Forall (λ piece,
            forallb (λ c, negb (Ascii.eqb c sep)) (list_ascii_of_string piece)
            = true)
    (split_on sep cur s).
Proof.
  revert cur. induction s as [|c s IH]; intros cur Hcur; simpl.
  - constructor; [|constructor].
    rewrite list_ascii_of_string_of_list_ascii. by apply forallb_rev_true.
  - destruct (Ascii.eqb c sep) eqn:E.
    + constructor; [|by apply IH].
      rewrite list_ascii_of_string_of_list_ascii. by apply forallb_rev_true.
    + apply IH. simpl. by rewrite E, Hcur.
Qed.

Lemma omap_length_le {A B} (f : A → option B) (l : list A) :
  (length (omap f l) ≤ length l)%nat.
Proof.
  induction l as [|x l IH]; csimpl; [done|].
  destruct (f x); simpl; lia.
Qed.

Lemma subtask_of_line_Some (line : string) (t : pydict) :
  subtask_of_line line = Some t →
  ∃ title, t = subtask title
    ∧ title = lstrip_chars bullet_chars (strip line)
    ∧ title ≠ EmptyString.
Proof.
  unfold subtask_of_line. destruct (strip line) as [|c rest] eqn:Hline; [done|].
  destruct (isdigit c || Ascii.eqb c "-"); [|done].
  destruct (lstrip_chars bullet_chars (String c rest)) as [|d r] eqn:Ht; [done|].
  intros [= <-]. by eexists.
Qed.

(** X21.  Every subtask that [_parse_subtasks] returns has the status
    pending and a title that is not empty, does not begin with a digit, a
    full stop, a dash, a closing bracket or a space, has no whitespace at
    its end and no line break; and there are at most as many subtasks as
    the stripped text has lines. *)
Theorem X21_parsed_subtasks_well_formed (text : string) :
  (∀ t, t ∈ _parse_subtasks text →
     ∃ c rest, t = subtask (String c rest)
       ∧ t !! "status" = Some (VStr "pending")
       ∧ char_in bullet_chars c = false
       ∧ rstrip_by isspace (String c rest) = String c rest
       ∧ no_newline (String c rest) = true)
  ∧ (length (_parse_subtasks text)
     ≤ length (split_on newline [] (strip text)))%nat.
Proof.
  unfold _parse_subtasks. split.
  - intros t Hin. apply list_elem_of_omap in Hin as (line & Hline & Hsub).
    apply subtask_of_line_Some in Hsub as (title & -> & Htitle & Hne).
    pose proof (lstrip_by_head (char_in bullet_chars) (strip line)) as Hhead.
    assert (Hr : rstrip_by isspace title = title).
    { rewrite Htitle. apply rstrip_by_lstrip. apply rstrip_by_idem. }
    assert (Hn : no_newline title = true).
    { rewrite Htitle. unfold no_newline, lstrip_chars, strip.
      apply lstrip_by_forallb, rstrip_by_forallb, lstrip_by_forallb.
      pose proof (split_on_pieces newline [] (strip text) eq_refl) as Hall.
      rewrite Forall_forall in Hall. by apply Hall. }
    unfold lstrip_chars in Htitle. rewrite <- Htitle in Hhead.
    destruct title as [|c rest]; [done|].
    exists c, rest. split; [done|]. split; [|done].
    unfold subtask. rewrite lookup_insert_ne by done. apply lookup_insert_eq.
  - apply omap_length_le.
Qed.

Lemma list_ascii_of_string_app (a b : string) :
  list_ascii_of_string (a +:+ b)
  = (list_ascii_of_string a ++ list_ascii_of_string b)%list.
Proof. induction a as [|c a IH]; simpl; [done|]. by rewrite IH. Qed.

Lemma lstrip_by_app (p : ascii → bool) (a b : string) :
  forallb p (list_ascii_of_string a) = true →
  lstrip_by p (a +:+ b) = lstrip_by p b.
Proof.
  induction a as [|c a IH]; simpl; [done|].
  intros [Hc Ha]%andb_true_iff. rewrite Hc. by apply IH.
Qed.

Lemma rstrip_by_app (p : ascii → bool) (a b : string) :
  rstrip_by p b ≠ EmptyString →
  rstrip_by p (a +:+ b) = a +:+ rstrip_by p b.
Proof.
  intros Hb. induction a as [|c a IH]; [done|].
  change (String c a +:+ b) with (String c (a +:+ b)).
  change (String c a +:+ rstrip_by p b) with (String c (a +:+ rstrip_by p b)).
  simpl. rewrite IH.
  assert (Hne : a +:+ rstrip_by p b ≠ EmptyString).
  { destruct a; [done|discriminate]. }
  by destruct (a +:+ rstrip_by p b).
Qed.

Lemma append_cons (c : ascii) (a b : string) :
  String c a +:+ b = String c (a +:+ b).
Proof. reflexivity. Qed.

Lemma append_empty_r (a : string) : a +:+ EmptyString = a.
Proof. induction a as [|c a IH]; [done|]. by rewrite append_cons, IH. Qed.

Lemma string_snoc_app (l : list ascii) (c : ascii) (a : string) :
  string_of_list_ascii (l ++ [c]) +:+ a
  = string_of_list_ascii l +:+ String c a.
Proof.
  induction l as [|d l IH]; [done|].
  simpl. by rewrite !append_cons, IH.
Qed.

Lemma split_on_line (sep : ascii) (cur : list ascii) (a b : string) :
  forallb (λ c, negb (Ascii.eqb c sep)) (list_ascii_of_string a) = true →
  split_on sep cur (a +:+ String sep b)
  = (string_of_list_ascii (rev cur) +:+ a) :: split_on sep [] b.
Proof.
  revert cur. induction a as [|c a IH]; intros cur Ha.
  - change (EmptyString +:+ String sep b) with (String sep b). simpl.
    by rewrite Ascii.eqb_refl, append_empty_r.
  - simpl in Ha. apply andb_true_iff in Ha as [Hc Ha].
    apply negb_true_iff in Hc. rewrite append_cons. simpl.
    rewrite Hc, IH by done. simpl. by rewrite string_snoc_app.
Qed.

Lemma split_on_last (sep : ascii) (cur : list ascii) (a : string) :
  forallb (λ c, negb (Ascii.eqb c sep)) (list_ascii_of_string a) = true →
  split_on sep cur a = [string_of_list_ascii (rev cur) +:+ a].
Proof.
  revert cur. induction a as [|c a IH]; intros cur Ha.
  - simpl. by rewrite append_empty_r.
  - simpl in Ha. apply andb_true_iff in Ha as [Hc Ha].
    apply negb_true_iff in Hc. simpl.
    rewrite Hc, IH by done. simpl. by rewrite string_snoc_app.
Qed.

Lemma concat_cons2 (sep x y : string) (l : list string) :
  String.concat sep (x :: y :: l) = x +:+ sep +:+ String.concat sep (y :: l).
Proof. reflexivity. Qed.

(** Splitting the lines joined by line breaks gives the lines back. *)
Lemma split_on_concat (lines : list string) :
  lines ≠ [] → Forall (λ l, no_newline l = true) lines →
  split_on newline [] (String.concat (String newline EmptyString) lines)
  = lines.
Proof.
  induction lines as [|x [|y l] IH]; intros Hne Hall; [done| |].
  - simpl. apply Forall_cons in Hall as [Hx _]. by rewrite split_on_last.
  - rewrite concat_cons2. apply Forall_cons in Hall as [Hx Hall].
    change (String newline EmptyString +:+ ?r) with (String newline r).
    rewrite split_on_line by done. simpl. f_equal. by apply IH.
Qed.

Lemma rstrip_concat (lines : list string) :
  lines ≠ [] →
  Forall (λ l, rstrip_by isspace l = l ∧ l ≠ EmptyString) lines →
  rstrip_by isspace (String.concat (String newline EmptyString) lines)
  = String.concat (String newline EmptyString) lines
  ∧ String.concat (String newline EmptyString) lines ≠ EmptyString.
Proof.
  induction lines as [|x [|y l] IH]; intros Hne Hall; [done| |].
  - simpl. by apply Forall_cons in Hall as [Hx _].
  - rewrite concat_cons2. apply Forall_cons in Hall as [_ Hall].
    destruct (IH ltac:(done) Hall) as [Hr Hn].
    set (rest := String.concat _ (y :: l)) in *.
    change (String newline EmptyString +:+ rest) with (String newline rest).
    assert (Hnl : rstrip_by isspace (String newline rest) = String newline rest).
    { simpl. rewrite Hr. by destruct rest. }
    split.
    + rewrite rstrip_by_app; rewrite Hnl; done.
    + destruct x; [done|discriminate].
Qed.

Lemma item_start_not_space (c : ascii) :
  isdigit c || Ascii.eqb c "-" = true → isspace c = false.
Proof.
  destruct (Ascii.eqb_spec c "-") as [->|_]; [done|].
  rewrite orb_false_r. unfold isdigit, isspace.
  set (n := nat_of_ascii c).
  repeat match goal with
         | |- context [(?a <=? ?b)%nat] => destruct (Nat.leb_spec a b)
         | |- context [(?a =? ?b)%nat] => destruct (Nat.eqb_spec a b)
         end; simpl; try done; lia.
Qed.

Lemma bullet_char_not_newline (c : ascii) :
  char_in bullet_chars c = true → negb (Ascii.eqb c newline) = true.
Proof.
  destruct (Ascii.eqb_spec c newline) as [->|_]; [|done].
  by vm_compute.
Qed.

(** A clean item written on a line is read back as its title; the line
    itself has nothing to strip and no line break. *)
Lemma clean_item_line (prefix title : string) :
  clean_item (prefix, title) = true →
  subtask_of_line (prefix +:+ title) = Some (subtask title)
  ∧ no_newline (prefix +:+ title) = true
  ∧ rstrip_by isspace (prefix +:+ title) = prefix +:+ title
  ∧ prefix +:+ title ≠ EmptyString
  ∧ lstrip_by isspace (prefix +:+ title) = prefix +:+ title.
Proof.
  unfold clean_item. rewrite !andb_true_iff.
  intros (((((Hstart & Hprefix) & Hne) & Hl) & Hr) & Hnl).
  destruct prefix as [|c prefix]; [done|].
  apply negb_true_iff, String.eqb_neq in Hne.
  apply String.eqb_eq in Hl, Hr.
  pose proof (item_start_not_space c Hstart) as Hspace.
  assert (Hrline : rstrip_by isspace (String c prefix +:+ title)
                   = String c prefix +:+ title).
  { rewrite rstrip_by_app; rewrite Hr; done. }
  assert (Hlline : lstrip_by isspace (String c prefix +:+ title)
                   = String c prefix +:+ title).
  { rewrite append_cons. simpl. by rewrite Hspace. }
  split; [|split; [|split; [done|split; [done|done]]]].
  - unfold subtask_of_line, strip. rewrite Hlline, Hrline.
    rewrite append_cons at 1. rewrite Hstart.
    unfold lstrip_chars in *. rewrite lstrip_by_app, Hl by done.
    by destruct title.
  - unfold no_newline. rewrite list_ascii_of_string_app, forallb_app.
    apply andb_true_iff. split; [|done].
    rewrite forallb_forall in *. intros x Hx.
    by apply bullet_char_not_newline, Hprefix.
Qed.

(** X22.  Items written one per line, each as a prefix of bullet
    characters that starts with a digit or a dash ("1. ", "2) ", "- ")
    followed by its title, are read back by [_parse_subtasks] as the
    subtasks of these titles, in order, when every title is clean: not
    empty, without a line break, not starting with a bullet character and
    not ending with whitespace. *)
Theorem X22_parse_subtasks_round_trip (items : list (string * string)) :
  forallb clean_item items = true →
  _parse_subtasks (item_lines items) = map (λ item, subtask item.2) items.
Proof.
  intros Hclean. destruct items as [|item0 items0] eqn:Hitems; [done|].
  rewrite <- Hitems in *.
  assert (Hne : map (λ item, item.1 +:+ item.2) items ≠ []) by by subst.
  assert (Hall : ∀ item, In item items →
            subtask_of_line (item.1 +:+ item.2) = Some (subtask item.2)
            ∧ no_newline (item.1 +:+ item.2) = true
            ∧ rstrip_by isspace (item.1 +:+ item.2) = item.1 +:+ item.2
            ∧ item.1 +:+ item.2 ≠ EmptyString
            ∧ lstrip_by isspace (item.1 +:+ item.2) = item.1 +:+ item.2).
  { rewrite forallb_forall in Hclean. intros [p t] Hin.
    by apply clean_item_line, Hclean. }
  unfold _parse_subtasks, item_lines, strip.
  set (lines := map (λ item, item.1 +:+ item.2) items) in *.
  assert (Hl : lstrip_by isspace (String.concat (String newline EmptyString) lines)
               = String.concat (String newline EmptyString) lines).
  { unfold lines. rewrite Hitems.
    destruct (Hall item0 ltac:(rewrite Hitems; by left)) as (_ & _ & _ & Hn0 & Hl0).
    simpl map. destruct (item0.1 +:+ item0.2) as [|c r] eqn:E; [done|].
    simpl in Hl0. destruct (isspace c) eqn:Hc.
    - exfalso. clear -Hl0. 
      assert (Hlen : ∀ s, (String.length (lstrip_by isspace s)
                           ≤ String.length s)%nat).
      { induction s as [|d s IH]; simpl; [done|].
        destruct (isspace d); simpl; lia. }
      specialize (Hlen r). rewrite Hl0 in Hlen. simpl in Hlen. lia.
    - destruct (map _ items0) as [|y l]; simpl; [by rewrite Hc|].
      rewrite append_cons. simpl. by rewrite Hc. }
  rewrite Hl.
  destruct (rstrip_concat lines Hne) as [Hr _].
  { unfold lines. apply Forall_forall. intros line Hin.
    apply list_elem_of_In, in_map_iff in Hin as (item & <- & Hin).
    destruct (Hall item Hin) as (_ & _ & ? & ? & _). done. }
  rewrite Hr, split_on_concat; [|done|].
  2:{ unfold lines. apply Forall_forall. intros line Hin.
      apply list_elem_of_In, in_map_iff in Hin as (item & <- & Hin).
      by destruct (Hall item Hin) as (_ & ? & _). }
  unfold lines. clear -Hall. induction items as [|item items IH]; [done|].
  csimpl. destruct (Hall item ltac:(by left)) as (-> & _).
  f_equal. apply IH. intros it Hin. apply Hall. by right.
Qed.

Lemma X21_parsed_subtasks_well_formed_witness :
  let text := item_lines [("1. ", "2024 budget"); ("- ", "ship it")] in
  ∃ c rest, subtask "budget" = subtask (String c rest)
    ∧ char_in bullet_chars c = false.
Proof.
  intros text.
  destruct (X21_parsed_subtasks_well_formed text) as [Hall _].
  destruct (Hall (subtask "budget")) as (c & rest & Heq & _ & Hc & _).
  - vm_compute. left.
  - by exists c, rest.
Defined.

Lemma X22_parse_subtasks_round_trip_witness :
  _parse_subtasks
    (item_lines [("1. ", "Write the tests"); ("2) ", "Review"); ("- ", "Ship it")])
  = [subtask "Write the tests"; subtask "Review"; subtask "Ship it"].
Proof.
  exact (X22_parse_subtasks_round_trip
           [("1. ", "Write the tests"); ("2) ", "Review"); ("- ", "Ship it")]
           eq_refl).
Defined.

(** * Cron fields *)

Lemma string_of_list_ascii_nonempty (l : list ascii) :
  l ≠ [] → string_of_list_ascii l ≠ EmptyString.
Proof. by destruct l. Qed.

Lemma split_from_field (cur : list ascii) (a : string) :
  forallb (λ c, negb (isspace c)) (list_ascii_of_string a) = true →
  cur ≠ [] ∨ a ≠ EmptyString →
  (∀ c s, isspace c = true →
     split_from cur (a +:+ String c s)
     = (string_of_list_ascii (rev cur) +:+ a) :: split_from [] s)
  ∧ split_from cur a = [string_of_list_ascii (rev cur) +:+ a].
Proof.
  revert cur. induction a as [|c0 a IH]; intros cur Ha Hne.
  - destruct Hne as [Hne|]; [|done]. rewrite append_empty_r. split.
    + intros c s Hc. change (EmptyString +:+ String c s) with (String c s).
      simpl. rewrite Hc. by destruct cur.
    + simpl. by destruct cur.
  - simpl in Ha. apply andb_true_iff in Ha as [Hc0 Ha].
    apply negb_true_iff in Hc0.
    destruct (IH (c0 :: cur) Ha ltac:(by left)) as [IH1 IH2]. split.
    + intros c s Hc. rewrite append_cons. simpl. rewrite Hc0, IH1 by done.
      simpl. by rewrite string_snoc_app.
    + simpl. rewrite Hc0, IH2. simpl. by rewrite string_snoc_app.
Qed.

Lemma split_from_fields (cur : list ascii) (s : string) :
  forallb (λ c, negb (isspace c)) cur = true →
  Forall (λ f, is_field f = true) (split_from cur s).
Proof.
  assert (Hflush : ∀ cur rest,
            forallb (λ c, negb (isspace c)) cur = true →
            Forall (λ f, is_field f = true) rest →
            Forall (λ f, is_field f = true)
              match cur with
              | [] => rest
              | _ => string_of_list_ascii (rev cur) :: rest
              end).
  { intros [|c cur'] rest Hcur Hrest; [done|]. constructor; [|done].
    unfold is_field. apply andb_true_iff. split.
    - apply negb_true_iff, String.eqb_neq, string_of_list_ascii_nonempty.
      simpl. by destruct (rev cur').
    - rewrite list_ascii_of_string_of_list_ascii. by apply forallb_rev_true. }
  revert cur. induction s as [|c s IH]; intros cur Hcur; simpl.
  - by apply Hflush.
  - destruct (isspace c) eqn:Hc.
    + apply Hflush; [done|]. by apply IH.
    + apply IH. simpl. by rewrite Hc, Hcur.
Qed.

(** X23.  The fields that [split] returns are never empty and hold no
    whitespace; and fields of that kind joined by single spaces are
    split into themselves: a cron expression written as five such fields
    with a space between them has exactly these five fields. *)
Theorem X23_split_fields :
  (∀ s, Forall (λ f, is_field f = true) (split s))
  ∧ (∀ fields, Forall (λ f, is_field f = true) fields →
               split (String.concat " " fields) = fields).
Proof.
  split; [intros s; by apply split_from_fields|].
  unfold split. induction fields as [|x [|y l] IH]; intros Hall; [done| |].
  - apply Forall_cons in Hall as [Hx _]. unfold is_field in Hx.
    apply andb_true_iff in Hx as [Hne Hx].
    apply negb_true_iff, String.eqb_neq in Hne. simpl.
    by destruct (split_from_field [] x Hx ltac:(by right)) as [_ ->].
  - apply Forall_cons in Hall as [Hx Hall]. unfold is_field in Hx.
    apply andb_true_iff in Hx as [Hne Hx].
    apply negb_true_iff, String.eqb_neq in Hne.
    rewrite concat_cons2.
    change (" " +:+ ?r) with (String " "%char r).
    destruct (split_from_field [] x Hx ltac:(by right)) as [Hfield _].
    rewrite Hfield by done. simpl. f_equal. by apply IH.
Qed.

Lemma X23_split_fields_witness :
  split (String.concat " " ["0"; "9"; "*"; "*"; "1-5"])
  = ["0"; "9"; "*"; "*"; "1-5"].
Proof.
  apply (proj2 X23_split_fields). repeat constructor.
Defined.
